(** * go-copilot-api: the models cache and the proxy selection

    A shallow embedding of [internal/copilot/models.go] (the [ModelsCache]
    with its [refresh], [GetModels], [SaveToFile] and [LoadFromFile]
    methods) and of the proxy lookup at the head of [config.Load].

    The cache validates payloads with [json.Unmarshal(data, &js)] where
    [js] is an [interface{}].  That function belongs to the Go standard
    library; its byte-level scanner ([encoding/json/scanner.go]) and the
    number conversion of the decoder are transcribed in [Module json]
    so that validation can be evaluated on concrete payloads. *)

From Stdlib Require Import ZArith Lia List Bool.
From Stdlib Require Import Strings.Byte Strings.String.
From stdpp Require Import base option list strings gmap.
Import ListNotations.

Local Open Scope Z_scope.

(** ** Bytes *)

Definition bytes_of (s : string) : list byte := list_byte_of_string s.
Definition string_of (b : list byte) : string := string_of_list_byte b.

Definition byte_code (c : byte) : Z := Z.of_N (Byte.to_N c).

(** [lo <= c && c <= hi] on bytes. *)
Definition byte_between (lo hi c : byte) : bool :=
  (byte_code lo <=? byte_code c) && (byte_code c <=? byte_code hi).

Definition is_digit (c : byte) : bool := byte_between "0"%byte "9"%byte c.

(** ** Go errors

    An [error] value is kept structured: the constructors are the ways the
    two source files (and the library calls they make) build errors.  The
    format string of each is given next to it. *)

Inductive syntax_msg : Type :=
  | invalid_character (c : byte) (context : string)
      (* "invalid character " + quoteChar(c) + " " + context *)
  | unexpected_end.
      (* "unexpected end of JSON input" *)

Inductive error : Type :=
  | errors_New (msg : string)
      (* errors.New(msg) *)
  | Errorf_wrap (prefix : string) (cause : error)
      (* fmt.Errorf(prefix + ": %w", cause) *)
  | Errorf_models_API (status : string) (body : list byte)
      (* fmt.Errorf("models API error: %s - %s", status, string(body)) *)
  | SyntaxError (msg : syntax_msg) (Offset : Z)
      (* &json.SyntaxError{msg, Offset} *)
  | UnmarshalTypeError (Value : string) (Type_ : string) (Offset : Z)
      (* &json.UnmarshalTypeError{Value, Type, Offset} *)
  | external_error (msg : string).
      (* an error produced by a collaborator: token manager, net/http, os *)

(** ** strconv: the range check of [ParseFloat(s, 64)]

    The decoder turns every JSON number into a [float64] with
    [strconv.ParseFloat], whose contract is: the nearest [float64]
    (ties to even) is returned, with a range error exactly when that
    value is infinite.  The check is done here in integers; no floating
    point value is built. *)

Module strconv.

(** Least magnitude that rounds to infinity: the largest finite [float64]
    plus half a unit in the last place. *)
Definition float64_overflow_bound : Z := 2 ^ 1024 - 2 ^ 970.

Definition digit_value (c : byte) : Z := byte_code c - byte_code "0"%byte.

(** [n = n*10 + digit] over a run of digits. *)
Definition digits_to_Z (ds : list byte) : Z :=
  fold_left (fun n c => n * 10 + digit_value c) ds 0.

(** Leading run of decimal digits and what follows it. *)
Fixpoint span_digits (s : list byte) : list byte * list byte :=
  match s with
  | c :: rest =>
      if is_digit c
      then let (ds, r) := span_digits rest in (c :: ds, r)
      else ([], s)
  | [] => ([], [])
  end.

(** Mantissa digits (integer part followed by fraction), number of
    fraction digits, and decimal exponent of a number literal. *)
Definition decimal_of_literal (s : list byte) : Z * Z * Z :=
  let s1 := match s with "-"%byte :: r => r | "+"%byte :: r => r | _ => s end in
  let (ip, s2) := span_digits s1 in
  let (fp, s3) :=
    match s2 with
    | "."%byte :: r => span_digits r
    | _ => ([], s2)
    end in
  let e :=
    match s3 with
    | "e"%byte :: r | "E"%byte :: r =>
        match r with
        | "+"%byte :: r' => digits_to_Z (fst (span_digits r'))
        | "-"%byte :: r' => - digits_to_Z (fst (span_digits r'))
        | _ => digits_to_Z (fst (span_digits r))
        end
    | _ => 0
    end in
  (digits_to_Z (ip ++ fp), Z.of_nat (length fp), e).

(** [true] when [ParseFloat(s, 64)] answers [ErrRange]: the magnitude
    mantissa * 10^(e - fraction digits) reaches the overflow bound. *)
Definition ParseFloat_out_of_range (s : list byte) : bool :=
  let '(m, nfrac, e) := decimal_of_literal s in
  let x := e - nfrac in
  if 0 <=? x
  then float64_overflow_bound <=? m * 10 ^ x
  else float64_overflow_bound * 10 ^ (- x) <=? m.

End strconv.

(** ** encoding/json: validity of a payload *)

Module json.

(** Values returned by the state transition functions. *)
Inductive scanCode : Type :=
  | scanContinue | scanBeginLiteral | scanBeginObject | scanObjectKey
  | scanObjectValue | scanEndObject | scanBeginArray | scanArrayValue
  | scanEndArray | scanSkipSpace | scanEnd | scanError.

(** Entries of the [parseState] stack. *)
Inductive parseKind : Type :=
  | parseObjectKey | parseObjectValue | parseArrayValue.

Definition maxNestingDepth : Z := 10000.

(** The [step] field of the scanner is a function pointer; one
    constructor stands for each state function. *)
Inductive stepFn : Type :=
  | fn_BeginValue | fn_BeginValueOrEmpty | fn_BeginStringOrEmpty
  | fn_BeginString | fn_EndValue | fn_EndTop
  | fn_InString | fn_InStringEsc | fn_InStringEscU | fn_InStringEscU1
  | fn_InStringEscU12 | fn_InStringEscU123
  | fn_Neg | fn_1 | fn_0 | fn_Dot | fn_Dot0 | fn_E | fn_ESign | fn_E0
  | fn_T | fn_Tr | fn_Tru | fn_F | fn_Fa | fn_Fal | fn_Fals
  | fn_N | fn_Nu | fn_Nul
  | fn_Error.

(** The scanner.  [parseState] is a Go slice that grows at its end; here
    its last element is the head of the list. *)
Record scanner : Type := mkScanner {
  step : stepFn;
  endTop : bool;
  parseState : list parseKind;
  err : option error;
  bytes : Z
}.

Definition set_step (f : stepFn) (s : scanner) : scanner :=
  mkScanner f (endTop s) (parseState s) (err s) (bytes s).

(** [s.reset()] on a zero scanner. *)
Definition reset : scanner := mkScanner fn_BeginValue false [] None 0.

(** [s.error(c, context)] *)
Definition scan_error (s : scanner) (c : byte) (context : string)
  : scanCode * scanner :=
  (scanError,
   mkScanner fn_Error (endTop s) (parseState s)
     (Some (SyntaxError (invalid_character c context) (bytes s)))
     (bytes s)).

(** [s.pushParseState(c, newParseState, successState)] *)
Definition pushParseState (s : scanner) (c : byte) (newParseState : parseKind)
    (successState : scanCode) : scanCode * scanner :=
  let s' := mkScanner (step s) (endTop s) (newParseState :: parseState s)
              (err s) (bytes s) in
  if Z.of_nat (length (parseState s')) <=? maxNestingDepth
  then (successState, s')
  else scan_error s' c "exceeded max depth".

(** [s.popParseState()] *)
Definition popParseState (s : scanner) : scanner :=
  let ps := tail (parseState s) in
  match ps with
  | [] => mkScanner fn_EndTop true ps (err s) (bytes s)
  | _ => mkScanner fn_EndValue (endTop s) ps (err s) (bytes s)
  end.

(** [s.parseState[n-1] = k] *)
Definition set_top (k : parseKind) (s : scanner) : scanner :=
  mkScanner (step s) (endTop s) (k :: tail (parseState s)) (err s) (bytes s).

Definition isSpace (c : byte) : bool :=
  match c with
  | " "%byte | x09 | x0d | x0a => true
  | _ => false
  end.

Definition isHex (c : byte) : bool :=
  byte_between "0"%byte "9"%byte c || byte_between "a"%byte "f"%byte c
  || byte_between "A"%byte "F"%byte c.

Definition stateEndTop (s : scanner) (c : byte) : scanCode * scanner :=
  if negb (isSpace c)
  then (scanEnd, snd (scan_error s c "after top-level value"))
  else (scanEnd, s).

Definition stateEndValue (s : scanner) (c : byte) : scanCode * scanner :=
  match parseState s with
  | [] =>
      stateEndTop (mkScanner fn_EndTop true (parseState s) (err s) (bytes s)) c
  | ps :: _ =>
      if isSpace c then (scanSkipSpace, set_step fn_EndValue s)
      else match ps with
      | parseObjectKey =>
          match c with
          | ":"%byte =>
              (scanObjectKey, set_step fn_BeginValue (set_top parseObjectValue s))
          | _ => scan_error s c "after object key"
          end
      | parseObjectValue =>
          match c with
          | ","%byte =>
              (scanObjectValue, set_step fn_BeginString (set_top parseObjectKey s))
          | "}"%byte => (scanEndObject, popParseState s)
          | _ => scan_error s c "after object key:value pair"
          end
      | parseArrayValue =>
          match c with
          | ","%byte => (scanArrayValue, set_step fn_BeginValue s)
          | "]"%byte => (scanEndArray, popParseState s)
          | _ => scan_error s c "after array element"
          end
      end
  end.

Definition stateBeginValue (s : scanner) (c : byte) : scanCode * scanner :=
  if isSpace c then (scanSkipSpace, s)
  else match c with
  | "{"%byte =>
      pushParseState (set_step fn_BeginStringOrEmpty s) c parseObjectKey
        scanBeginObject
  | "["%byte =>
      pushParseState (set_step fn_BeginValueOrEmpty s) c parseArrayValue
        scanBeginArray
  | x22 => (scanBeginLiteral, set_step fn_InString s)
  | "-"%byte => (scanBeginLiteral, set_step fn_Neg s)
  | "0"%byte => (scanBeginLiteral, set_step fn_0 s)
  | "t"%byte => (scanBeginLiteral, set_step fn_T s)
  | "f"%byte => (scanBeginLiteral, set_step fn_F s)
  | "n"%byte => (scanBeginLiteral, set_step fn_N s)
  | _ =>
      if byte_between "1"%byte "9"%byte c
      then (scanBeginLiteral, set_step fn_1 s)
      else scan_error s c "looking for beginning of value"
  end.

Definition stateBeginValueOrEmpty (s : scanner) (c : byte)
  : scanCode * scanner :=
  if isSpace c then (scanSkipSpace, s)
  else match c with
  | "]"%byte => stateEndValue s c
  | _ => stateBeginValue s c
  end.

Definition stateBeginString (s : scanner) (c : byte) : scanCode * scanner :=
  if isSpace c then (scanSkipSpace, s)
  else match c with
  | x22 => (scanBeginLiteral, set_step fn_InString s)
  | _ => scan_error s c "looking for beginning of object key string"
  end.

Definition stateBeginStringOrEmpty (s : scanner) (c : byte)
  : scanCode * scanner :=
  if isSpace c then (scanSkipSpace, s)
  else match c with
  | "}"%byte => stateEndValue (set_top parseObjectValue s) c
  | _ => stateBeginString s c
  end.

Definition stateInString (s : scanner) (c : byte) : scanCode * scanner :=
  match c with
  | x22 => (scanContinue, set_step fn_EndValue s)
  | "\"%byte => (scanContinue, set_step fn_InStringEsc s)
  | _ =>
      if byte_code c <? 32 then scan_error s c "in string literal"
      else (scanContinue, s)
  end.

Definition stateInStringEsc (s : scanner) (c : byte) : scanCode * scanner :=
  match c with
  | "b"%byte | "f"%byte | "n"%byte | "r"%byte | "t"%byte
  | "\"%byte | "/"%byte | x22 =>
      (scanContinue, set_step fn_InString s)
  | "u"%byte => (scanContinue, set_step fn_InStringEscU s)
  | _ => scan_error s c "in string escape code"
  end.

(** The four states after a backslash-u share one shape. *)
Definition stateInStringEscHex (next : stepFn) (s : scanner) (c : byte)
  : scanCode * scanner :=
  if isHex c then (scanContinue, set_step next s)
  else scan_error s c "in \u hexadecimal character escape".

Definition stateE0 (s : scanner) (c : byte) : scanCode * scanner :=
  if is_digit c then (scanContinue, s) else stateEndValue s c.

Definition stateESign (s : scanner) (c : byte) : scanCode * scanner :=
  if is_digit c then (scanContinue, set_step fn_E0 s)
  else scan_error s c "in exponent of numeric literal".

Definition stateE (s : scanner) (c : byte) : scanCode * scanner :=
  match c with
  | "+"%byte | "-"%byte => (scanContinue, set_step fn_ESign s)
  | _ => stateESign s c
  end.

Definition stateDot0 (s : scanner) (c : byte) : scanCode * scanner :=
  if is_digit c then (scanContinue, s)
  else match c with
  | "e"%byte | "E"%byte => (scanContinue, set_step fn_E s)
  | _ => stateEndValue s c
  end.

Definition stateDot (s : scanner) (c : byte) : scanCode * scanner :=
  if is_digit c then (scanContinue, set_step fn_Dot0 s)
  else scan_error s c "after decimal point in numeric literal".

Definition state0 (s : scanner) (c : byte) : scanCode * scanner :=
  match c with
  | "."%byte => (scanContinue, set_step fn_Dot s)
  | "e"%byte | "E"%byte => (scanContinue, set_step fn_E s)
  | _ => stateEndValue s c
  end.

Definition state1 (s : scanner) (c : byte) : scanCode * scanner :=
  if is_digit c then (scanContinue, set_step fn_1 s) else state0 s c.

Definition stateNeg (s : scanner) (c : byte) : scanCode * scanner :=
  match c with
  | "0"%byte => (scanContinue, set_step fn_0 s)
  | _ =>
      if byte_between "1"%byte "9"%byte c
      then (scanContinue, set_step fn_1 s)
      else scan_error s c "in numeric literal"
  end.

(** The states inside [true], [false] and [null]: the one byte [want]
    moves on to [next], anything else is an error. *)
Definition stateLiteral (want : byte) (next : stepFn) (context : string)
    (s : scanner) (c : byte) : scanCode * scanner :=
  if Z.eqb (byte_code c) (byte_code want)
  then (scanContinue, set_step next s)
  else scan_error s c context.

(** [s.step(s, c)]: call through the function pointer. *)
Definition call_step (s : scanner) (c : byte) : scanCode * scanner :=
  match step s with
  | fn_BeginValue => stateBeginValue s c
  | fn_BeginValueOrEmpty => stateBeginValueOrEmpty s c
  | fn_BeginStringOrEmpty => stateBeginStringOrEmpty s c
  | fn_BeginString => stateBeginString s c
  | fn_EndValue => stateEndValue s c
  | fn_EndTop => stateEndTop s c
  | fn_InString => stateInString s c
  | fn_InStringEsc => stateInStringEsc s c
  | fn_InStringEscU => stateInStringEscHex fn_InStringEscU1 s c
  | fn_InStringEscU1 => stateInStringEscHex fn_InStringEscU12 s c
  | fn_InStringEscU12 => stateInStringEscHex fn_InStringEscU123 s c
  | fn_InStringEscU123 => stateInStringEscHex fn_InString s c
  | fn_Neg => stateNeg s c
  | fn_1 => state1 s c
  | fn_0 => state0 s c
  | fn_Dot => stateDot s c
  | fn_Dot0 => stateDot0 s c
  | fn_E => stateE s c
  | fn_ESign => stateESign s c
  | fn_E0 => stateE0 s c
  | fn_T => stateLiteral "r"%byte fn_Tr "in literal true (expecting 'r')" s c
  | fn_Tr => stateLiteral "u"%byte fn_Tru "in literal true (expecting 'u')" s c
  | fn_Tru => stateLiteral "e"%byte fn_EndValue "in literal true (expecting 'e')" s c
  | fn_F => stateLiteral "a"%byte fn_Fa "in literal false (expecting 'a')" s c
  | fn_Fa => stateLiteral "l"%byte fn_Fal "in literal false (expecting 'l')" s c
  | fn_Fal => stateLiteral "s"%byte fn_Fals "in literal false (expecting 's')" s c
  | fn_Fals => stateLiteral "e"%byte fn_EndValue "in literal false (expecting 'e')" s c
  | fn_N => stateLiteral "u"%byte fn_Nu "in literal null (expecting 'u')" s c
  | fn_Nu => stateLiteral "l"%byte fn_Nul "in literal null (expecting 'l')" s c
  | fn_Nul => stateLiteral "l"%byte fn_EndValue "in literal null (expecting 'l')" s c
  | fn_Error => (scanError, s)
  end.

(** [s.eof()] *)
Definition eof (s : scanner) : scanCode * scanner :=
  match err s with
  | Some _ => (scanError, s)
  | None =>
      if endTop s then (scanEnd, s)
      else
        let s1 := snd (call_step s " "%byte) in
        if endTop s1 then (scanEnd, s1)
        else match err s1 with
        | Some _ => (scanError, s1)
        | None =>
            (scanError,
             mkScanner (step s1) (endTop s1) (parseState s1)
               (Some (SyntaxError unexpected_end (bytes s1)))
               (bytes s1))
        end
  end.

Definition incr_bytes (s : scanner) : scanner :=
  mkScanner (step s) (endTop s) (parseState s) (err s) (bytes s + 1).

(** The loop of [checkValid]: [for _, c := range data], leaving with
    [scan.err] as soon as a step answers [scanError]. *)
Fixpoint checkValid_loop (data : list byte) (scan : scanner)
  : scanner + option error :=
  match data with
  | [] => inl scan
  | c :: rest =>
      match call_step (incr_bytes scan) c with
      | (scanError, s') => inr (err s')
      | (_, s') => checkValid_loop rest s'
      end
  end.

(** [checkValid(data, scan)]: [None] is the nil error. *)
Definition checkValid (data : list byte) : option error :=
  match checkValid_loop data reset with
  | inr e => e
  | inl s =>
      match eof s with
      | (scanError, s') => err s'
      | _ => None
      end
  end.

(** *** Decoding into an empty interface

    After the syntax check, [Unmarshal] builds the value.  With an
    [interface{}] target objects become maps, arrays become slices,
    strings, booleans and null are stored as they are, and a number goes
    through [convertNumber]; that conversion is the only step that can
    still fail, and the first such error is the one returned. *)

Definition is_number_byte (c : byte) : bool :=
  is_digit c ||
  match c with
  | "."%byte | "e"%byte | "E"%byte | "+"%byte | "-"%byte => true
  | _ => false
  end.

(** The bytes [rescanLiteral] walks over for a number. *)
Fixpoint number_run (data : list byte) : list byte :=
  match data with
  | c :: rest => if is_number_byte c then c :: number_run rest else []
  | [] => []
  end.

(** [d.convertNumber(s)] without [UseNumber]; [off] is [d.off]. *)
Definition convertNumber (s : list byte) (off : Z) : option error :=
  if strconv.ParseFloat_out_of_range s
  then Some (UnmarshalTypeError ("number " +:+ string_of s) "float64" off)
  else None.

(** Walk the (valid) input with the scanner; at every literal that starts
    with [-] or a digit convert the number.  Returns [d.savedError]. *)
Fixpoint decode_numbers (data : list byte) (scan : scanner) (i : Z)
  : option error :=
  match data with
  | [] => None
  | c :: rest =>
      let (code, s') := call_step scan c in
      let here :=
        match code with
        | scanBeginLiteral =>
            if is_digit c || Z.eqb (byte_code c) (byte_code "-"%byte)
            then let item := c :: number_run rest in
                 convertNumber item (i + Z.of_nat (length item) + 1)
            else None
        | _ => None
        end in
      match here with
      | Some e => Some e
      | None => decode_numbers rest s' (i + 1)
      end
  end.

(** [json.Unmarshal(data, &js)] with [var js interface{}]: the error
    returned, [None] for nil. *)
Definition Unmarshal (data : list byte) : option error :=
  match checkValid data with
  | Some e => Some e
  | None => decode_numbers data reset 0
  end.

(** The first byte of the value, past leading white space. *)
Fixpoint first_value_byte (data : list byte) : option byte :=
  match data with
  | c :: rest => if isSpace c then first_value_byte rest else Some c
  | [] => None
  end.

(** Well-formed JSON text, and the kind of its top-level value. *)
Definition well_formed (data : list byte) : bool :=
  match checkValid data with None => true | Some _ => false end.

Definition is_object (data : list byte) : bool :=
  well_formed data &&
  match first_value_byte data with
  | Some "{"%byte => true
  | _ => false
  end.

End json.


(** ** time: instants and durations

    A [time.Time] is an instant in nanoseconds counted from the zero
    [time.Time]; a [time.Duration] is an [int64] count of nanoseconds,
    and a difference of instants saturates at its ends. *)

Module time.

Definition minDuration : Z := - 2 ^ 63.
Definition maxDuration : Z := 2 ^ 63 - 1.

(** The zero value of [time.Time]. *)
Definition zero : Z := 0.

(** [t.Sub(u)] *)
Definition Sub (t u : Z) : Z :=
  if t - u <? minDuration then minDuration
  else if maxDuration <? t - u then maxDuration
  else t - u.

(** [time.Since(t)] when the clock reads [now]. *)
Definition Since (now t : Z) : Z := Sub now t.

End time.

(** ** The collaborators of the cache *)

(** A [context.Context]: the background context or one handed in by a
    caller. *)
Inductive Context : Type :=
  | context_Background
  | context_Caller (id : nat).

(** A [*http.Client]. *)
Inductive Client : Type :=
  | http_DefaultClient
  | http_Client (id : nat).

(** A [*TokenManager]; the type is declared elsewhere in the package and
    only its [GetToken] method is used here. *)
Inductive TokenManager : Type :=
  | TokenManager_at (id : nat).

Record Request : Type := mkRequest {
  Method : string;
  URL : string;
  req_ctx : Context;
  Header : gmap string string
}.

(** What [io.ReadAll(resp.Body)] gives: the bytes read and the error. *)
Record Response : Type := mkResponse {
  StatusCode : Z;
  Status : string;
  Body : list byte * option error
}.

(** The answers of the outside world to one run of [refresh]. *)
Record World : Type := mkWorld {
  GetToken : TokenManager -> Context -> string + error;
  NewRequestWithContext : Context -> string -> string -> option error;
  Do : Client -> Request -> Response + error;
  Now : Z
}.

(** ** os: files *)

Module os.

Inductive Fault : Type :=
  | no_fault
  | open_fault (e : error)          (* the file cannot be opened *)
  | io_fault (e : error) (n : nat). (* the transfer stops after [n] bytes *)

Definition ErrNotExist : error := external_error "file does not exist".

(** [os.WriteFile(name, data, perm)]: create or truncate, then write. *)
Definition WriteFile (flt : Fault) (fs : gmap string (list byte))
    (name : string) (data : list byte)
  : option error * gmap string (list byte) :=
  match flt with
  | no_fault => (None, <[name := data]> fs)
  | open_fault e => (Some e, fs)
  | io_fault e n => (Some e, <[name := take n data]> fs)
  end.

(** [os.ReadFile(name)] *)
Definition ReadFile (flt : Fault) (fs : gmap string (list byte))
    (name : string) : list byte * option error :=
  match flt, fs !! name with
  | open_fault e, _ => ([], Some e)
  | _, None => ([], Some ErrNotExist)
  | io_fault e n, Some d => (take n d, Some e)
  | no_fault, Some d => (d, None)
  end.

End os.

(** ** The cache *)

(** [ModelsCache]; the mutex [mu] shows in the trace of a method, not in
    the record. *)
Record ModelsCache : Type := mkModelsCache {
  modelsJSON : list byte;
  lastFetch : Z;
  ttl : Z;
  tokenManager : TokenManager;
  httpClient : Client
}.

(** What a method does besides computing its result. *)
Inductive Event : Type :=
  | mu_RLock | mu_RUnlock | mu_Lock | mu_Unlock
  | store_modelsJSON (data : list byte)
  | store_lastFetch (t : Z)
  | call_GetToken (tm : TokenManager) (ctx : Context)
  | call_NewRequest (ctx : Context)
  | call_Do (client : Client) (req : Request)
  | call_ReadAll
  | call_Body_Close
  | go_refresh (ctx : Context)
  | call_WriteFile (name : string) (data : list byte) (perm : Z)
  | call_ReadFile (name : string).

(** A method body: from the receiver to a result, the receiver
    afterwards and the events in program order. *)
Definition M (A : Type) : Type := ModelsCache -> A * ModelsCache * list Event.

#[export] Instance M_ret : MRet M := fun A a c => (a, c, []).

#[export] Instance M_bind : MBind M := fun A B f m c =>
  let '(a, c1, t1) := m c in
  let '(b, c2, t2) := f a c1 in
  (b, c2, t1 ++ t2).

Definition emit (e : Event) : M unit := fun c => (tt, c, [e]).

Definition receiver : M ModelsCache := fun c => (c, c, []).

(** [c.modelsJSON = data] *)
Definition set_modelsJSON (data : list byte) : M unit := fun c =>
  (tt, mkModelsCache data (lastFetch c) (ttl c) (tokenManager c) (httpClient c),
   [store_modelsJSON data]).

(** [c.lastFetch = t] *)
Definition set_lastFetch (t : Z) : M unit := fun c =>
  (tt, mkModelsCache (modelsJSON c) t (ttl c) (tokenManager c) (httpClient c),
   [store_lastFetch t]).

Definition result {A} (r : A * ModelsCache * list Event) : A := fst (fst r).
Definition after {A} (r : A * ModelsCache * list Event) : ModelsCache :=
  snd (fst r).
Definition trace {A} (r : A * ModelsCache * list Event) : list Event := snd r.

Definition modelsURL : string := "https://api.githubcopilot.com/models".

(** The request [refresh] builds: [http.NewRequestWithContext(ctx,
    http.MethodGet, modelsURL, nil)] followed by the four
    [req.Header.Set] calls. *)
Definition build_request (ctx : Context) (token : string) : Request :=
  mkRequest "GET" modelsURL ctx
    (<["Copilot-Integration-Id" := "vscode-chat"]>
     (<["Editor-Version" := "vscode/1.95.0"]>
      (<["Authorization" := "Bearer " +:+ token]>
       (<["Accept" := "application/json"]> ∅)))).

(** [func (c *ModelsCache) refresh(ctx context.Context) error] *)
Definition refresh (w : World) (ctx : Context) : M (option error) :=
  c ← receiver;
  emit (call_GetToken (tokenManager c) ctx);;
  match GetToken w (tokenManager c) ctx with
  | inr e => mret (Some (Errorf_wrap "failed to get Copilot token" e))
  | inl token =>
      emit (call_NewRequest ctx);;
      match NewRequestWithContext w ctx "GET" modelsURL with
      | Some e => mret (Some e)
      | None =>
          let req := build_request ctx token in
          emit (call_Do (httpClient c) req);;
          match Do w (httpClient c) req with
          | inr e => mret (Some (Errorf_wrap "failed to fetch models" e))
          | inl resp =>
              r ← (if negb (StatusCode resp =? 200)
                   then
                     emit call_ReadAll;;
                     mret (Some (Errorf_models_API (Status resp)
                                   (fst (Body resp))))
                   else
                     emit call_ReadAll;;
                     match Body resp with
                     | (_, Some e) => mret (Some e)
                     | (data, None) =>
                         match json.Unmarshal data with
                         | Some e =>
                             mret (Some (Errorf_wrap "invalid models JSON" e))
                         | None =>
                             emit mu_Lock;;
                             set_modelsJSON data;;
                             set_lastFetch (Now w);;
                             emit mu_Unlock;;
                             mret None
                         end
                     end);
              emit call_Body_Close;;   (* defer resp.Body.Close() *)
              mret r
          end
      end
  end.

(** [NewModelsCache(ctx, tokenManager, ttl, httpClient)]; a nil
    [httpClient] is [None].  The result is the cache or the error. *)
Definition NewModelsCache (w : World) (ctx : Context) (tm : TokenManager)
    (ttl0 : Z) (client : option Client) : (ModelsCache + error) * list Event :=
  let client' := match client with None => http_DefaultClient | Some h => h end in
  let cache := mkModelsCache [] time.zero ttl0 tm client' in
  match refresh w ctx cache with
  | (Some e, _, t) => (inr e, t)
  | (None, cache', t) => (inl cache', t)
  end.

(** [func (c *ModelsCache) GetModels(ctx) ([]byte, error)]; [now] is the
    clock when [time.Since] is evaluated. *)
Definition GetModels (now : Z) (ctx : Context) : M (list byte * option error) :=
  emit mu_RLock;;
  c ← receiver;
  let models := modelsJSON c in
  let expired := ttl c <? time.Since now (lastFetch c) in
  emit mu_RUnlock;;
  if negb expired && (0 <? Z.of_nat (length models))
  then mret (models, None)
  else
    emit (go_refresh context_Background);;
    if 0 <? Z.of_nat (length models)
    then mret (models, None)
    else mret ([], Some (errors_New "models not available")).

(** [func (c *ModelsCache) SaveToFile(path string) error], with the file
    system before and after. *)
Definition SaveToFile (flt : os.Fault) (fs : gmap string (list byte))
    (path : string) : M (option error * gmap string (list byte)) :=
  emit mu_RLock;;
  c ← receiver;
  r ← (if Z.of_nat (length (modelsJSON c)) =? 0
       then mret (Some (errors_New "no models to save"), fs)
       else
         emit (call_WriteFile path (modelsJSON c) 420);;   (* 0644 *)
         mret (os.WriteFile flt fs path (modelsJSON c)));
  emit mu_RUnlock;;   (* defer c.mu.RUnlock() *)
  mret r.

(** [func (c *ModelsCache) LoadFromFile(path string) error] *)
Definition LoadFromFile (flt : os.Fault) (fs : gmap string (list byte))
    (path : string) (now : Z) : M (option error) :=
  emit (call_ReadFile path);;
  match os.ReadFile flt fs path with
  | (_, Some e) => mret (Some e)
  | (data, None) =>
      match json.Unmarshal data with
      | Some e => mret (Some (Errorf_wrap "invalid models JSON" e))
      | None =>
          emit mu_Lock;;
          set_modelsJSON data;;
          set_lastFetch now;;
          emit mu_Unlock;;
          mret None
      end
  end.

(** Goroutines started by the [go] statements of a trace, each run to
    its end against [w], one after another; a [go] statement drops the
    value its function returns. *)
Fixpoint run_spawned (w : World) (t : list Event) (c : ModelsCache)
  : ModelsCache * list Event :=
  match t with
  | [] => (c, [])
  | go_refresh ctx :: t' =>
      let '(_, c1, t1) := refresh w ctx c in
      let (c2, t2) := run_spawned w t' c1 in
      (c2, t1 ++ t2)
  | _ :: t' => run_spawned w t' c
  end.

(** A call of [GetModels] together with the refresh it may have started:
    what the caller gets, the cache once the goroutine is done, and the
    events of the goroutine. *)
Definition GetModels_with_background (w : World) (now : Z) (ctx : Context)
    (c : ModelsCache) : (list byte * option error) * ModelsCache * list Event :=
  let r := GetModels now ctx c in
  let (c', t') := run_spawned w (trace r) (after r) in
  (result r, c', t').

(** Events that talk to the token manager or to the network. *)
Definition is_network (e : Event) : bool :=
  match e with
  | call_GetToken _ _ | call_NewRequest _ | call_Do _ _
  | call_ReadAll | call_Body_Close => true
  | _ => false
  end.

(** Events that write a field of the cache. *)
Definition is_store (e : Event) : bool :=
  match e with
  | store_modelsJSON _ | store_lastFetch _ => true
  | _ => false
  end.

(** ** config: the proxy taken from the environment *)

Module config.

(** [getEnv(key, def)]: [os.LookupEnv] is the lookup in [env]. *)
Definition getEnv (env : gmap string string) (key def : string) : string :=
  match env !! key with
  | Some val => val
  | None => def
  end.

(** The local [httpProxy] of [Load] when it reaches the [Config]
    literal, which stores it in the field [HTTPProxy] and hands it to
    [createHTTPClient]. *)
Definition Load_httpProxy (env : gmap string string) : string :=
  let httpProxy := getEnv env "HTTPS_PROXY" "" in
  let httpProxy :=
    if String.eqb httpProxy "" then getEnv env "https_proxy" "" else httpProxy in
  let httpProxy :=
    if String.eqb httpProxy "" then getEnv env "HTTP_PROXY" "" else httpProxy in
  let httpProxy :=
    if String.eqb httpProxy "" then getEnv env "http_proxy" "" else httpProxy in
  let httpProxy :=
    if String.eqb httpProxy "" then getEnv env "ALL_PROXY" "" else httpProxy in
  let httpProxy :=
    if String.eqb httpProxy "" then getEnv env "all_proxy" "" else httpProxy in
  httpProxy.

(** The rule in words: the variables in their order of precedence, and
    the first value that is not empty, or the empty string. *)
Definition proxy_variables : list string :=
  ["HTTPS_PROXY"; "https_proxy"; "HTTP_PROXY"; "http_proxy";
   "ALL_PROXY"; "all_proxy"].

Fixpoint first_non_empty (values : list string) : string :=
  match values with
  | [] => ""
  | v :: rest => if String.eqb v "" then first_non_empty rest else v
  end.

Definition proxy_by_precedence (env : gmap string string) : string :=
  first_non_empty (map (fun k => default "" (env !! k)) proxy_variables).

End config.

(** ** Sample values *)

Definition double_quote : list byte := [x22].

(** The payload of a models listing: an object with one model. *)
Definition sample_models : list byte :=
  bytes_of "{" ++ double_quote ++ bytes_of "data" ++ double_quote ++ bytes_of ":[{"
  ++ double_quote ++ bytes_of "id" ++ double_quote ++ bytes_of ":" ++ double_quote
  ++ bytes_of "gpt-4" ++ double_quote ++ bytes_of "}]}".

Definition sample_array : list byte := bytes_of "[1,2,3]".

Definition ten_minutes : Z := 600 * 10 ^ 9.

(** A cache that fetched [sample_models] at instant [1000]. *)
Definition sample_cache : ModelsCache :=
  mkModelsCache sample_models 1000 ten_minutes (TokenManager_at 0)
    http_DefaultClient.

(** An empty cache, as the struct literal of [NewModelsCache] makes it. *)
Definition empty_cache : ModelsCache :=
  mkModelsCache [] time.zero ten_minutes (TokenManager_at 0) http_DefaultClient.

(** A world in which the token is granted and the upstream answers with
    the given status and body at instant [now]. *)
Definition world_answering (code : Z) (status : string) (body : list byte)
    (now : Z) : World :=
  mkWorld (fun _ _ => inl "tok") (fun _ _ _ => None)
    (fun _ _ => inl (mkResponse code status (body, None))) now.


(** The receiver with a new blob and fetch time. *)
Definition committed (c : ModelsCache) (data : list byte) (now : Z)
  : ModelsCache :=
  mkModelsCache data now (ttl c) (tokenManager c) (httpClient c).

(** The events of a refresh that went through. *)
Definition refresh_trace_ok (c : ModelsCache) (ctx : Context) (token : string)
    (data : list byte) (now : Z) : list Event :=
  [call_GetToken (tokenManager c) ctx; call_NewRequest ctx;
   call_Do (httpClient c) (build_request ctx token); call_ReadAll;
   mu_Lock; store_modelsJSON data; store_lastFetch now; mu_Unlock;
   call_Body_Close].

(** [refresh] got the response [resp] from the upstream: the token was
    granted, the request was built and the transport answered. *)
Definition upstream_answers (w : World) (ctx : Context) (c : ModelsCache)
    (resp : Response) : Prop :=
  exists token,
    GetToken w (tokenManager c) ctx = inl token /\
    NewRequestWithContext w ctx "GET" modelsURL = None /\
    Do w (httpClient c) (build_request ctx token) = inl resp.

(** The ways [refresh] returns an error, each with the error returned. *)
Inductive failure_cause (w : World) (ctx : Context) (c : ModelsCache)
  : error -> Prop :=
  | token_error e :
      GetToken w (tokenManager c) ctx = inr e ->
      failure_cause w ctx c (Errorf_wrap "failed to get Copilot token" e)
  | request_error token e :
      GetToken w (tokenManager c) ctx = inl token ->
      NewRequestWithContext w ctx "GET" modelsURL = Some e ->
      failure_cause w ctx c e
  | transport_error token e :
      GetToken w (tokenManager c) ctx = inl token ->
      NewRequestWithContext w ctx "GET" modelsURL = None ->
      Do w (httpClient c) (build_request ctx token) = inr e ->
      failure_cause w ctx c (Errorf_wrap "failed to fetch models" e)
  | status_error resp :
      upstream_answers w ctx c resp ->
      StatusCode resp <> 200 ->
      failure_cause w ctx c
        (Errorf_models_API (Status resp) (fst (Body resp)))
  | body_read_error resp data e :
      upstream_answers w ctx c resp ->
      StatusCode resp = 200 ->
      Body resp = (data, Some e) ->
      failure_cause w ctx c e
  | payload_error resp data e :
      upstream_answers w ctx c resp ->
      StatusCode resp = 200 ->
      Body resp = (data, None) ->
      json.Unmarshal data = Some e ->
      failure_cause w ctx c (Errorf_wrap "invalid models JSON" e).

(** The cache holds a blob: bytes that are not empty and that
    [json.Unmarshal] accepts. *)
Definition holds_blob (c : ModelsCache) : Prop :=
  modelsJSON c <> [] /\ json.Unmarshal (modelsJSON c) = None.

(** The caches a program can get hold of: what [NewModelsCache] returned,
    and the receiver after any method call, whatever the world answers.
    A background refresh is a call of [refresh]. *)
Inductive reachable : ModelsCache -> Prop :=
  | reach_new w ctx tm ttl0 client c t :
      NewModelsCache w ctx tm ttl0 client = (inl c, t) ->
      reachable c
  | reach_refresh w ctx c :
      reachable c -> reachable (after (refresh w ctx c))
  | reach_GetModels now ctx c :
      reachable c -> reachable (after (GetModels now ctx c))
  | reach_SaveToFile flt fs path c :
      reachable c -> reachable (after (SaveToFile flt fs path c))
  | reach_LoadFromFile flt fs path now c :
      reachable c -> reachable (after (LoadFromFile flt fs path now c)).

(** Number of events of a trace that satisfy [p]. *)
Definition count_events (p : Event -> bool) (t : list Event) : nat :=
  length (filter (fun e => p e = true) t).

Definition is_GetToken (e : Event) : bool :=
  match e with call_GetToken _ _ => true | _ => false end.

Definition is_Do (e : Event) : bool :=
  match e with call_Do _ _ => true | _ => false end.

Definition is_go (e : Event) : bool :=
  match e with go_refresh _ => true | _ => false end.

Definition is_WriteFile (e : Event) : bool :=
  match e with call_WriteFile _ _ _ => true | _ => false end.

(** ** The mutex along a trace *)

Inductive lock_state : Type := Unlocked | ReadLocked | WriteLocked.

(** One event seen by the [sync.RWMutex] of a cache used by one
    goroutine: a lock is taken only when free and released only by its
    holder; a field is stored only under the write lock.  With
    [io_free] set, a call to a collaborator or to the file system is
    allowed only while no lock is held. *)
Definition lock_step (io_free : bool) (s : lock_state) (e : Event)
  : option lock_state :=
  match e with
  | mu_RLock => match s with Unlocked => Some ReadLocked | _ => None end
  | mu_RUnlock => match s with ReadLocked => Some Unlocked | _ => None end
  | mu_Lock => match s with Unlocked => Some WriteLocked | _ => None end
  | mu_Unlock => match s with WriteLocked => Some Unlocked | _ => None end
  | store_modelsJSON _ | store_lastFetch _ =>
      match s with WriteLocked => Some s | _ => None end
  | go_refresh _ => Some s
  | _ =>
      if io_free
      then match s with Unlocked => Some s | _ => None end
      else Some s
  end.

Fixpoint lock_run (io_free : bool) (s : lock_state) (t : list Event)
  : option lock_state :=
  match t with
  | [] => Some s
  | e :: t' =>
      match lock_step io_free s e with
      | Some s' => lock_run io_free s' t'
      | None => None
      end
  end.

(** One call of a method on a cache, by anybody, with any answers. *)
Inductive method_step : ModelsCache -> ModelsCache -> Prop :=
  | step_refresh w ctx c :
      method_step c (after (refresh w ctx c))
  | step_GetModels w now ctx c :
      method_step c (after (GetModels_with_background w now ctx c))
  | step_SaveToFile flt fs path c :
      method_step c (after (SaveToFile flt fs path c))
  | step_LoadFromFile flt fs path now c :
      method_step c (after (LoadFromFile flt fs path now c)).

(** ** config: the rest of [Load]

    The functions of the configuration file besides the proxy lookup.
    The machine they run on is a [Host]: the environment, the platform,
    the files, the random source, and the library functions whose
    answers are taken as given ([url.Parse], [filepath.Join],
    [os.UserHomeDir], the typed decoding of [apps.json] and the order
    in which [range] walks a map). *)

Module configfile.

(** A [*url.URL] as [url.Parse] returns it. *)
Inductive URL : Type := URL_at (id : nat).

(** [http.Transport], the fields [createHTTPClient] sets; [Proxy] is
    [None] for the nil function and [Some u] for [http.ProxyURL(u)]. *)
Record Transport : Type := mkTransport {
  TLSMinVersion : Z;
  MaxIdleConns : Z;
  MaxIdleConnsPerHost : Z;
  IdleConnTimeout : Z;
  Proxy : option URL
}.

(** [http.Client] *)
Record http_Client : Type := mk_http_Client {
  client_Transport : Transport;
  Timeout : Z
}.

(** A [*http.Client] that is not nil. *)
Inductive ClientPtr : Type :=
  | DefaultClient
  | ClientAt (c : http_Client).

Definition VersionTLS12 : Z := 771.   (* 0x0303 *)
Definition Second : Z := 10 ^ 9.

(** [Config]; a nil [HTTPClient] is [None]. *)
Record Config : Type := mkConfig {
  ServerAddr : string;
  Debug : bool;
  CopilotOAuthToken : string;
  CopilotToken : string;
  ServerPort : string;
  CORSAllowedOrigins : string;
  DefaultModel : string;
  HTTPProxy : string;
  HTTPClient : option http_Client
}.

(** An entry of [apps.json]. *)
Record App : Type := mkApp {
  User : string;
  OAuthToken : string;
  GitHubAppId : string
}.

Record Host : Type := mkHost {
  environ : gmap string string;           (* os.LookupEnv, os.Getenv *)
  GOOS : string;                          (* runtime.GOOS *)
  UserHomeDir : string + error;           (* os.UserHomeDir() *)
  Join : list string -> string;           (* filepath.Join(elem...) *)
  ReadFile : string -> list byte + error; (* os.ReadFile(name) *)
  rand_Read : (nat -> byte) + error;
    (* rand.Read(b): the byte put at each index of b, or the error *)
  url_Parse : string -> URL + error;      (* url.Parse(rawURL) *)
  decode_apps : list byte -> gmap string App + error;
    (* the decoding of valid JSON text into the map of apps *)
  range_apps : gmap string App -> list (string * App)
    (* the entries in the order [for _, v := range apps] meets them *)
}.

Inductive config_error : Type :=
  | invalid_proxy_URL (proxyURL : string) (cause : error)
      (* fmt.Errorf("invalid proxy URL %q: %w", proxyURL, err) *)
  | failed_to_create_client (cause : config_error).
      (* fmt.Errorf("failed to create HTTP client with proxy: %w", err) *)

(** What the functions do besides computing their result. *)
Inductive Effect : Type :=
  | call_rand_Read (n : nat)
  | call_url_Parse (rawURL : string)
  | call_UserHomeDir
  | call_ReadFile (name : string)
  | call_Unmarshal (data : list byte)
  | print_using_proxy (proxy : string)
      (* fmt.Printf("Using HTTP proxy: %s\n", httpProxy) *)
  | warn_invalid_boolean (key val : string) (def : bool)
      (* fmt.Fprintf(os.Stderr, "Invalid boolean for %s: %v, using default %v\n", ...) *)
  | warn_token_not_found.
      (* fmt.Fprintln(os.Stderr, "Warning: Copilot OAuth token not found ...") *)

(** A function body: its result and its effects in program order. *)
Definition Out (A : Type) : Type := A * list Effect.

#[export] Instance Out_ret : MRet Out := fun A a => (a, []).

#[export] Instance Out_bind : MBind Out := fun A B f m =>
  let (a, t1) := m in
  let (b, t2) := f a in
  (b, t1 ++ t2).

Definition effect (e : Effect) : Out unit := (tt, [e]).

(** [strconv.ParseBool(str)]; [None] is the syntax error. *)
Definition ParseBool (str : string) : option bool :=
  if String.eqb str "1" || String.eqb str "t" || String.eqb str "T"
     || String.eqb str "TRUE" || String.eqb str "true" || String.eqb str "True"
  then Some true
  else if String.eqb str "0" || String.eqb str "f" || String.eqb str "F"
          || String.eqb str "FALSE" || String.eqb str "false"
          || String.eqb str "False"
  then Some false
  else None.

(** [getEnvBool(key, def)] *)
Definition getEnvBool (h : Host) (key : string) (def : bool) : Out bool :=
  match environ h !! key with
  | None => mret def
  | Some val =>
      match ParseBool val with
      | Some b => mret b
      | None => effect (warn_invalid_boolean key val def);; mret def
      end
  end.

(** The sixteen digits of the verb [%x]. *)
Definition hex_digit (n : N) : Ascii.ascii :=
  match String.get (N.to_nat n) "0123456789abcdef" with
  | Some d => d
  | None => Ascii.zero
  end.

(** [fmt.Sprintf("%x", b)] for a byte slice: two digits per byte. *)
Fixpoint Sprintf_x (b : list byte) : string :=
  match b with
  | [] => ""
  | c :: rest =>
      String (hex_digit (Byte.to_N c / 16))
        (String (hex_digit (Byte.to_N c mod 16)) (Sprintf_x rest))
  end.

(** [randomToken()] *)
Definition randomToken (h : Host) : Out string :=
  effect (call_rand_Read 32);;
  match rand_Read h with
  | inr _ => mret "default-token"
  | inl fill => mret (Sprintf_x (map fill (seq 0 32)))
  end.

(** The loop [for _, v := range apps] of [findCopilotToken]. *)
Fixpoint first_OAuthToken (entries : list (string * App)) : string :=
  match entries with
  | [] => ""
  | (_, v) :: rest =>
      if negb (String.eqb (OAuthToken v) "") then OAuthToken v
      else first_OAuthToken rest
  end.

(** [json.Unmarshal(data, &apps)]: the syntax check of [checkValid],
    then the decoding. *)
Definition Unmarshal_apps (h : Host) (data : list byte)
  : gmap string App + error :=
  match json.checkValid data with
  | Some e => inr e
  | None => decode_apps h data
  end.

(** [findCopilotToken()] *)
Definition findCopilotToken (h : Host) : Out string :=
  configPath ←
    (if String.eqb (GOOS h) "windows"
     then
       let localAppData := default "" (environ h !! "LOCALAPPDATA") in
       if negb (String.eqb localAppData "")
       then mret (Join h [localAppData; "github-copilot"; "apps.json"])
       else mret ""
     else
       effect call_UserHomeDir;;
       match UserHomeDir h with
       | inl home =>
           mret (Join h [home; ".config"; "github-copilot"; "apps.json"])
       | inr _ => mret ""
       end);
  if String.eqb configPath "" then mret ""
  else
    effect (call_ReadFile configPath);;
    match ReadFile h configPath with
    | inr _ => mret ""
    | inl data =>
        effect (call_Unmarshal data);;
        match Unmarshal_apps h data with
        | inr _ => mret ""
        | inl apps => mret (first_OAuthToken (range_apps h apps))
        end
    end.

(** [createHTTPClient(proxyURL)] *)
Definition createHTTPClient (h : Host) (proxyURL : string)
  : Out (http_Client + config_error) :=
  let transport :=
    mkTransport VersionTLS12 100 10 (90 * Second) None in
  r ← (if negb (String.eqb proxyURL "")
       then
         effect (call_url_Parse proxyURL);;
         match url_Parse h proxyURL with
         | inr e => mret (inr (invalid_proxy_URL proxyURL e))
         | inl parsed =>
             mret (inl (mkTransport (TLSMinVersion transport)
                          (MaxIdleConns transport)
                          (MaxIdleConnsPerHost transport)
                          (IdleConnTimeout transport) (Some parsed)))
         end
       else mret (inl transport));
  match r with
  | inr e => mret (inr e)
  | inl transport' => mret (inl (mk_http_Client transport' (30 * Second)))
  end.

(** [func (c *Config) GetHTTPClient() *http.Client] *)
Definition GetHTTPClient (c : Config) : ClientPtr :=
  match HTTPClient c with
  | Some client => ClientAt client
  | None => DefaultClient
  end.

(** [Load()] *)
Definition Load (h : Host) : Out (Config + config_error) :=
  let httpProxy := config.Load_httpProxy (environ h) in
  let serverAddr := config.getEnv (environ h) "SERVER_ADDR" ":8080" in
  debug ← getEnvBool h "DEBUG" false;
  fallback ← randomToken h;
  let cfg :=
    mkConfig serverAddr debug ""
      (config.getEnv (environ h) "COPILOT_TOKEN" fallback)
      (config.getEnv (environ h) "COPILOT_SERVER_PORT" "9191")
      (config.getEnv (environ h) "CORS_ALLOWED_ORIGINS" "*")
      (config.getEnv (environ h) "DEFAULT_MODEL" "")
      httpProxy None in
  r ← createHTTPClient h httpProxy;
  match r with
  | inr e => mret (inr (failed_to_create_client e))
  | inl httpClient =>
      (if negb (String.eqb httpProxy "")
       then effect (print_using_proxy httpProxy) else mret tt);;
      let token := config.getEnv (environ h) "COPILOT_OAUTH_TOKEN" "" in
      token ← (if String.eqb token "" then findCopilotToken h else mret token);
      (if String.eqb token ""
       then effect warn_token_not_found else mret tt);;
      mret (inl (mkConfig (ServerAddr cfg) (Debug cfg) token
                   (CopilotToken cfg) (ServerPort cfg)
                   (CORSAllowedOrigins cfg) (DefaultModel cfg)
                   (HTTPProxy cfg) (Some httpClient)))
  end.

(** The digit a character of [%x] output stands for, and the bytes a
    string of such pairs stands for. *)
Definition hex_value (d : Ascii.ascii) : option N :=
  let n := Ascii.N_of_ascii d in
  if (48 <=? n)%N && (n <=? 57)%N then Some (n - 48)%N
  else if (97 <=? n)%N && (n <=? 102)%N then Some (n - 87)%N
  else None.

Fixpoint unhex (s : string) : option (list byte) :=
  match s with
  | EmptyString => Some []
  | String hi (String lo rest) =>
      match hex_value hi, hex_value lo, unhex rest with
      | Some a, Some b, Some bs =>
          match Byte.of_N (a * 16 + b) with
          | Some c => Some (c :: bs)
          | None => None
          end
      | _, _, _ => None
      end
  | String _ EmptyString => None
  end.

(** A host with the given environment on which nothing else is there:
    no home directory, no file, no random source, no URL parses. *)
Definition bare_host (env : gmap string string) : Host :=
  mkHost env "linux" (inr (external_error "$HOME is not defined"))
    (fun elems => foldr (fun e acc => e +:+ "/" +:+ acc) "" elems)
    (fun _ => inr os.ErrNotExist)
    (inr (external_error "no entropy"))
    (fun _ => inr (external_error "parse error"))
    (fun _ => inl ∅)
    (fun apps => map_to_list apps).

(** A Linux host with a home directory, one [apps.json] with the given
    content decoded to [apps], a random source that answers [fill], and
    a URL parser that accepts everything. *)
Definition linux_host (env : gmap string string) (content : list byte)
    (apps : gmap string App) (fill : nat -> byte) : Host :=
  mkHost env "linux" (inl "/home/u")
    (fun elems => String.concat "/" elems)
    (fun name =>
       if String.eqb name "/home/u/.config/github-copilot/apps.json"
       then inl content else inr os.ErrNotExist)
    (inl fill)
    (fun _ => inl (URL_at 1))
    (fun _ => inl apps)
    (fun m => map_to_list m).

End configfile.

(** ** Further predicates on events and effects *)

Definition is_Body_Close (e : Event) : bool :=
  match e with call_Body_Close => true | _ => false end.

Definition true_spellings : list string :=
  ["1"; "t"; "T"; "TRUE"; "true"; "True"].

Definition false_spellings : list string :=
  ["0"; "f"; "F"; "FALSE"; "false"; "False"].

(** Effects of [Load] that look for [apps.json]. *)
Definition is_token_lookup (e : configfile.Effect) : bool :=
  match e with
  | configfile.call_UserHomeDir | configfile.call_ReadFile _
  | configfile.call_Unmarshal _ => true
  | _ => false
  end.

Definition is_rand_Read (e : configfile.Effect) : bool :=
  match e with configfile.call_rand_Read _ => true | _ => false end.

Definition is_url_Parse (e : configfile.Effect) : bool :=
  match e with configfile.call_url_Parse _ => true | _ => false end.

(** The value of [configPath] when [findCopilotToken] tests it: the
    place of [apps.json] on this host, or the empty string. *)
Definition apps_json_path (h : configfile.Host) : string :=
  if String.eqb (configfile.GOOS h) "windows"
  then
    if negb (String.eqb (default "" (configfile.environ h !! "LOCALAPPDATA")) "")
    then configfile.Join h
           [default "" (configfile.environ h !! "LOCALAPPDATA");
            "github-copilot"; "apps.json"]
    else ""
  else
    match configfile.UserHomeDir h with
    | inl home =>
        configfile.Join h [home; ".config"; "github-copilot"; "apps.json"]
    | inr _ => ""
    end.

(** [range] meets every entry of a map once. *)
Definition range_visits_each_entry_once (h : configfile.Host) : Prop :=
  forall apps, configfile.range_apps h apps ≡ₚ map_to_list apps.

(** An [apps.json] with one application, and the map it decodes to. *)
Definition sample_apps_json : list byte :=
  bytes_of "{" ++ double_quote ++ bytes_of "github.com:Iv1.b507a08c87ecfe98"
  ++ double_quote ++ bytes_of ":{" ++ double_quote ++ bytes_of "user"
  ++ double_quote ++ bytes_of ":" ++ double_quote ++ bytes_of "octocat"
  ++ double_quote ++ bytes_of "," ++ double_quote ++ bytes_of "oauth_token"
  ++ double_quote ++ bytes_of ":" ++ double_quote ++ bytes_of "gho_abc"
  ++ double_quote ++ bytes_of "}}".

Definition sample_apps : gmap string configfile.App :=
  {["github.com:Iv1.b507a08c87ecfe98" := configfile.mkApp "octocat" "gho_abc" ""]}.

Definition sample_fill (i : nat) : byte := if Nat.even i then xab else x07.

(** * Properties *)

(** ** Running a method body *)

Ltac run_M :=
  unfold result, after, trace, refresh, GetModels, SaveToFile, LoadFromFile,
    NewModelsCache, emit, receiver, set_modelsJSON, set_lastFetch,
    mbind, mret, M_bind, M_ret in *;
  cbn [fst snd app] in *.

Ltac run_Out :=
  unfold configfile.getEnvBool, configfile.randomToken,
    configfile.createHTTPClient, configfile.findCopilotToken,
    configfile.effect, mbind, mret, configfile.Out_bind,
    configfile.Out_ret in *;
  cbn [fst snd app] in *.

Lemma refresh_failure_keeps (w : World) (ctx : Context) (c : ModelsCache) :
  result (refresh w ctx c) <> None ->
  after (refresh w ctx c) = c /\
  forallb (fun e => negb (is_store e)) (trace (refresh w ctx c)) = true.
Proof.
  run_M.
  destruct (GetToken w (tokenManager c) ctx) as [token|e]; cbn; [|done].
  destruct (NewRequestWithContext w ctx "GET" modelsURL); cbn; [done|].
  destruct (Do w (httpClient c) (build_request ctx token)) as [resp|e];
    cbn; [|done].
  destruct (StatusCode resp =? 200); cbn; [|done].
  destruct (Body resp) as [data [e|]]; cbn; [done|].
  destruct (json.Unmarshal data); cbn; [done|].
  intros H; contradiction.
Qed.

Lemma refresh_success (w : World) (ctx : Context) (c : ModelsCache) :
  result (refresh w ctx c) = None ->
  exists token resp data,
    GetToken w (tokenManager c) ctx = inl token /\
    NewRequestWithContext w ctx "GET" modelsURL = None /\
    Do w (httpClient c) (build_request ctx token) = inl resp /\
    StatusCode resp = 200 /\
    Body resp = (data, None) /\
    json.Unmarshal data = None /\
    after (refresh w ctx c) = committed c data (Now w) /\
    trace (refresh w ctx c) = refresh_trace_ok c ctx token data (Now w).
Proof.
  run_M.
  destruct (GetToken w (tokenManager c) ctx) as [token|e]; cbn; [|done].
  destruct (NewRequestWithContext w ctx "GET" modelsURL); cbn; [done|].
  destruct (Do w (httpClient c) (build_request ctx token)) as [resp|e] eqn:HDo;
    cbn; [|done].
  destruct (StatusCode resp =? 200) eqn:Hcode; cbn; [|done].
  destruct (Body resp) as [data [e|]] eqn:HBody; cbn; [done|].
  destruct (json.Unmarshal data) eqn:HU; cbn; [done|].
  intros _. exists token, resp, data.
  apply Z.eqb_eq in Hcode. rewrite HBody. done.
Qed.

(** What [refresh] does once the upstream has answered with [resp]. *)
Lemma refresh_on_response (w : World) (ctx : Context) (c : ModelsCache)
    (resp : Response) :
  upstream_answers w ctx c resp ->
  result (refresh w ctx c) =
    (if negb (StatusCode resp =? 200)
     then Some (Errorf_models_API (Status resp) (fst (Body resp)))
     else match Body resp with
          | (_, Some e) => Some e
          | (data, None) =>
              match json.Unmarshal data with
              | Some e => Some (Errorf_wrap "invalid models JSON" e)
              | None => None
              end
          end) /\
  after (refresh w ctx c) =
    (if negb (StatusCode resp =? 200) then c
     else match Body resp with
          | (_, Some e) => c
          | (data, None) =>
              match json.Unmarshal data with
              | Some e => c
              | None => committed c data (Now w)
              end
          end).
Proof.
  intros (token & HT & HR & HD). run_M. rewrite HT; cbn. rewrite HR; cbn.
  rewrite HD; cbn.
  destruct (StatusCode resp =? 200); cbn; [|done].
  destruct (Body resp) as [data [e|]]; cbn; [done|].
  destruct (json.Unmarshal data); done.
Qed.

(** The errors of [refresh] are those of the six causes, no more. *)
Lemma refresh_failure_iff (w : World) (ctx : Context) (c : ModelsCache)
    (e : error) :
  result (refresh w ctx c) = Some e <-> failure_cause w ctx c e.
Proof.
  split.
  - run_M.
    destruct (GetToken w (tokenManager c) ctx) as [token|e0] eqn:HT; cbn.
    2:{ intros [= <-]. by constructor. }
    destruct (NewRequestWithContext w ctx "GET" modelsURL) as [e0|] eqn:HR; cbn.
    { intros [= <-]. by eapply request_error. }
    destruct (Do w (httpClient c) (build_request ctx token)) as [resp|e0] eqn:HD;
      cbn.
    2:{ intros [= <-]. by eapply transport_error. }
    assert (upstream_answers w ctx c resp) as Hup by (by exists token).
    destruct (StatusCode resp =? 200) eqn:Hcode; cbn.
    + apply Z.eqb_eq in Hcode.
      destruct (Body resp) as [data [e0|]] eqn:HB; cbn.
      { intros [= <-]. by eapply body_read_error. }
      destruct (json.Unmarshal data) as [e0|] eqn:HU; cbn; [|done].
      intros [= <-]. by eapply payload_error.
    + apply Z.eqb_neq in Hcode. intros [= <-]. by constructor.
  - intros [e0 HT|token e0 HT HR|token e0 HT HR HD|resp Hup Hcode
            |resp data e0 Hup Hcode HB|resp data e0 Hup Hcode HB HU].
    + run_M. by rewrite HT.
    + run_M. rewrite HT; cbn. by rewrite HR.
    + run_M. rewrite HT; cbn. rewrite HR; cbn. by rewrite HD.
    + destruct (refresh_on_response w ctx c resp Hup) as [-> _].
      apply Z.eqb_neq in Hcode. by rewrite Hcode.
    + destruct (refresh_on_response w ctx c resp Hup) as [-> _].
      apply Z.eqb_eq in Hcode. by rewrite Hcode, HB.
    + destruct (refresh_on_response w ctx c resp Hup) as [-> _].
      apply Z.eqb_eq in Hcode. by rewrite Hcode, HB, HU.
Qed.

(** A payload that [Unmarshal] accepts is well-formed JSON text. *)
Lemma Unmarshal_well_formed (data : list byte) :
  json.Unmarshal data = None -> json.well_formed data = true.
Proof.
  unfold json.Unmarshal, json.well_formed.
  by destruct (json.checkValid data).
Qed.

(** No bytes, no JSON: the scanner reports the end of the input. *)
Lemma Unmarshal_empty :
  json.Unmarshal [] = Some (SyntaxError unexpected_end 0).
Proof. reflexivity. Qed.

Lemma Unmarshal_accepts_nonempty (data : list byte) :
  json.Unmarshal data = None -> data <> [].
Proof. intros H ->. by rewrite Unmarshal_empty in H. Qed.

(** What [LoadFromFile] does with the bytes it read. *)
Lemma LoadFromFile_on_data (flt : os.Fault) (fs : gmap string (list byte))
    (path : string) (now : Z) (c : ModelsCache) (data : list byte) :
  os.ReadFile flt fs path = (data, None) ->
  LoadFromFile flt fs path now c =
    match json.Unmarshal data with
    | Some e =>
        (Some (Errorf_wrap "invalid models JSON" e), c, [call_ReadFile path])
    | None =>
        (None, committed c data now,
         [call_ReadFile path; mu_Lock; store_modelsJSON data;
          store_lastFetch now; mu_Unlock])
    end.
Proof.
  intros HR. run_M. rewrite HR; cbn.
  by destruct (json.Unmarshal data).
Qed.

(** ** Payload validation *)

(** C1, as the code has it: bytes that [json.Unmarshal] rejects (text
    that is not well-formed JSON, or a number outside the [float64]
    range) make [LoadFromFile] and [refresh] fail with the error
    "invalid models JSON: ..." and leave the cache as it was; bytes that
    it accepts are committed with the time of the call, whatever the
    kind of the top-level value, and every payload that is not
    well-formed is among the rejected ones. *)
Theorem C1_undecodable_payload_rejected (data : list byte) (c : ModelsCache) :
  (json.well_formed data = false -> json.Unmarshal data <> None) /\
  (forall e, json.Unmarshal data = Some e ->
     (forall flt fs path now,
        os.ReadFile flt fs path = (data, None) ->
        result (LoadFromFile flt fs path now c)
          = Some (Errorf_wrap "invalid models JSON" e) /\
        after (LoadFromFile flt fs path now c) = c) /\
     (forall w ctx resp,
        upstream_answers w ctx c resp ->
        StatusCode resp = 200 -> Body resp = (data, None) ->
        result (refresh w ctx c)
          = Some (Errorf_wrap "invalid models JSON" e) /\
        after (refresh w ctx c) = c)) /\
  (json.Unmarshal data = None ->
     (forall flt fs path now,
        os.ReadFile flt fs path = (data, None) ->
        result (LoadFromFile flt fs path now c) = None /\
        after (LoadFromFile flt fs path now c) = committed c data now) /\
     (forall w ctx resp,
        upstream_answers w ctx c resp ->
        StatusCode resp = 200 -> Body resp = (data, None) ->
        result (refresh w ctx c) = None /\
        after (refresh w ctx c) = committed c data (Now w))).
Proof.
  split; [|split].
  - intros Hwf HU. apply Unmarshal_well_formed in HU. congruence.
  - intros e HU. split.
    + intros flt fs path now HR.
      rewrite (LoadFromFile_on_data _ _ _ _ _ _ HR), HU. done.
    + intros w ctx resp Hup Hcode HB.
      destruct (refresh_on_response w ctx c resp Hup) as [-> ->].
      apply Z.eqb_eq in Hcode. rewrite Hcode, HB, HU. done.
  - intros HU. split.
    + intros flt fs path now HR.
      rewrite (LoadFromFile_on_data _ _ _ _ _ _ HR), HU. done.
    + intros w ctx resp Hup Hcode HB.
      destruct (refresh_on_response w ctx c resp Hup) as [-> ->].
      apply Z.eqb_eq in Hcode. rewrite Hcode, HB, HU. done.
Qed.

(** A file cut short is rejected and the cache keeps its blob; a file
    holding an array is loaded. *)
Lemma C1_undecodable_payload_rejected_witness :
  (result (LoadFromFile os.no_fault {["models.json" := bytes_of "{"]}
             "models.json" 5000 sample_cache)
     = Some (Errorf_wrap "invalid models JSON" (SyntaxError unexpected_end 1)) /\
   after (LoadFromFile os.no_fault {["models.json" := bytes_of "{"]}
            "models.json" 5000 sample_cache) = sample_cache) /\
  (result (LoadFromFile os.no_fault {["models.json" := sample_array]}
             "models.json" 5000 sample_cache) = None /\
   after (LoadFromFile os.no_fault {["models.json" := sample_array]}
            "models.json" 5000 sample_cache)
     = committed sample_cache sample_array 5000).
Proof.
  split.
  - apply (proj1 (proj1 (proj2 (C1_undecodable_payload_rejected
                                  (bytes_of "{") sample_cache))
                          (SyntaxError unexpected_end 1) eq_refl)).
    reflexivity.
  - apply (proj1 (proj2 (proj2 (C1_undecodable_payload_rejected
                                  sample_array sample_cache)) eq_refl)).
    reflexivity.
Defined.

(** C1 as stated fails: [[1,2,3]] is well-formed JSON and not an object,
    yet [LoadFromFile] and a refresh that receives it both succeed and
    replace the blob and the fetch time. *)
Lemma C1_array_payload_is_committed :
  json.well_formed sample_array = true /\
  json.is_object sample_array = false /\
  result (LoadFromFile os.no_fault {["models.json" := sample_array]}
            "models.json" 5000 sample_cache) = None /\
  modelsJSON (after (LoadFromFile os.no_fault {["models.json" := sample_array]}
                       "models.json" 5000 sample_cache)) = sample_array /\
  lastFetch (after (LoadFromFile os.no_fault {["models.json" := sample_array]}
                       "models.json" 5000 sample_cache)) = 5000 /\
  modelsJSON sample_cache <> sample_array /\
  lastFetch sample_cache <> 5000 /\
  result (refresh (world_answering 200 "200 OK" sample_array 5000)
            context_Background sample_cache) = None /\
  modelsJSON (after (refresh (world_answering 200 "200 OK" sample_array 5000)
                       context_Background sample_cache)) = sample_array.
Proof. repeat split; try reflexivity; discriminate. Qed.

(** ** Refresh *)

(** C3: a refresh that fails, for whichever of the six causes, leaves
    the cache as it was and stores nothing; a refresh that succeeds
    replaces the blob and the fetch time, both between [Lock] and
    [Unlock] of the mutex. *)
Theorem C3_failed_refresh_keeps_state (w : World) (ctx : Context)
    (c : ModelsCache) :
  (forall e, failure_cause w ctx c e -> result (refresh w ctx c) = Some e) /\
  (result (refresh w ctx c) <> None ->
     (exists e, failure_cause w ctx c e) /\
     modelsJSON (after (refresh w ctx c)) = modelsJSON c /\
     lastFetch (after (refresh w ctx c)) = lastFetch c /\
     after (refresh w ctx c) = c /\
     forallb (fun e => negb (is_store e)) (trace (refresh w ctx c)) = true) /\
  (result (refresh w ctx c) = None ->
     exists token data,
       after (refresh w ctx c) = committed c data (Now w) /\
       trace (refresh w ctx c) =
         [call_GetToken (tokenManager c) ctx; call_NewRequest ctx;
          call_Do (httpClient c) (build_request ctx token); call_ReadAll;
          mu_Lock; store_modelsJSON data; store_lastFetch (Now w); mu_Unlock;
          call_Body_Close]).
Proof.
  split; [|split].
  - intros e. apply refresh_failure_iff.
  - intros Hfail.
    destruct (refresh_failure_keeps w ctx c Hfail) as [Hsame Hnostore].
    split.
    + destruct (result (refresh w ctx c)) as [e|] eqn:Hres; [|done].
      exists e. by apply refresh_failure_iff.
    + by rewrite Hsame.
  - intros Hok.
    destruct (refresh_success w ctx c Hok)
      as (token & resp & data & _ & _ & _ & _ & _ & _ & Hafter & Htrace).
    by exists token, data.
Qed.

(** The upstream answers 500 to a refresh of a cache that holds a blob:
    the blob and its fetch time stay. *)
Lemma C3_failed_refresh_keeps_state_witness :
  modelsJSON (after (refresh
     (world_answering 500 "500 Internal Server Error" (bytes_of "oops") 9000)
     context_Background sample_cache)) = sample_models /\
  lastFetch (after (refresh
     (world_answering 500 "500 Internal Server Error" (bytes_of "oops") 9000)
     context_Background sample_cache)) = 1000.
Proof.
  destruct (proj1 (proj2 (C3_failed_refresh_keeps_state
     (world_answering 500 "500 Internal Server Error" (bytes_of "oops") 9000)
     context_Background sample_cache)))
    as (_ & Hblob & Htime & _).
  - vm_compute. discriminate.
  - split; [exact Hblob | exact Htime].
Defined.

(** C5, as the code has it: status 200 alone goes on to reading and
    validating the body; every other status, the other 2xx codes
    included, makes [refresh] fail with "models API error: <status> -
    <body>" built from the status line and the body of the response, and
    the cache is left as it was. *)
Theorem C5_only_status_200_accepted (w : World) (ctx : Context)
    (c : ModelsCache) (resp : Response) :
  upstream_answers w ctx c resp ->
  (StatusCode resp <> 200 ->
     result (refresh w ctx c)
       = Some (Errorf_models_API (Status resp) (fst (Body resp))) /\
     after (refresh w ctx c) = c) /\
  (StatusCode resp = 200 ->
     result (refresh w ctx c) =
       match Body resp with
       | (_, Some e) => Some e
       | (data, None) =>
           match json.Unmarshal data with
           | Some e => Some (Errorf_wrap "invalid models JSON" e)
           | None => None
           end
       end).
Proof.
  intros Hup. destruct (refresh_on_response w ctx c resp Hup) as [-> ->].
  split; intros Hcode.
  - apply Z.eqb_neq in Hcode. by rewrite Hcode.
  - apply Z.eqb_eq in Hcode. by rewrite Hcode.
Qed.

Lemma C5_only_status_200_accepted_witness :
  result (refresh
     (world_answering 401 "401 Unauthorized" (bytes_of "bad credentials") 9000)
     context_Background sample_cache)
    = Some (Errorf_models_API "401 Unauthorized" (bytes_of "bad credentials")) /\
  after (refresh
     (world_answering 401 "401 Unauthorized" (bytes_of "bad credentials") 9000)
     context_Background sample_cache) = sample_cache.
Proof.
  apply (proj1 (C5_only_status_200_accepted
     (world_answering 401 "401 Unauthorized" (bytes_of "bad credentials") 9000)
     context_Background sample_cache
     (mkResponse 401 "401 Unauthorized" (bytes_of "bad credentials", None))
     (ex_intro _ "tok"%string (conj eq_refl (conj eq_refl eq_refl))))).
  vm_compute. discriminate.
Defined.

(** C5 as stated fails: 201 is a 2xx status and the body is a valid
    models object, yet [refresh] does not validate it and fails with the
    upstream error. *)
Lemma C5_status_201_is_rejected :
  200 <= 201 < 300 /\
  json.Unmarshal sample_models = None /\
  result (refresh (world_answering 201 "201 Created" sample_models 9000)
            context_Background empty_cache)
    = Some (Errorf_models_API "201 Created" sample_models) /\
  modelsJSON (after (refresh (world_answering 201 "201 Created" sample_models 9000)
                       context_Background empty_cache)) = [].
Proof. repeat split; try reflexivity; lia. Qed.

(** ** Reading the cache *)

(** Away from the ends of [int64], [time.Since] is the plain difference. *)
Lemma Since_exact (now t : Z) :
  time.minDuration <= now - t <= time.maxDuration ->
  time.Since now t = now - t.
Proof.
  unfold time.Since, time.Sub. intros [Hlo Hhi].
  destruct (Z.ltb_spec (now - t) time.minDuration); [lia|].
  destruct (Z.ltb_spec time.maxDuration (now - t)); [lia|done].
Qed.

Lemma length_pos_bytes (l : list byte) :
  (0 <? Z.of_nat (length l)) = true <-> l <> [].
Proof.
  destruct l; cbn [length]; split; done.
Qed.

(** A stale read, whatever the blob. *)
Lemma GetModels_expired (now : Z) (ctx : Context) (c : ModelsCache) :
  ttl c < time.Since now (lastFetch c) ->
  GetModels now ctx c =
    (if 0 <? Z.of_nat (length (modelsJSON c))
     then (modelsJSON c, None)
     else ([], Some (errors_New "models not available")),
     c, [mu_RLock; mu_RUnlock; go_refresh context_Background]).
Proof.
  intros Hexp. apply Z.ltb_lt in Hexp. run_M. rewrite Hexp; cbn.
  by destruct (0 <? Z.of_nat (length (modelsJSON c))).
Qed.

(** C2: a read of a stale entry returns the stored blob with a nil
    error when there is one, and the error "models not available" when
    there is none; either way it starts one goroutine running [refresh]
    under [context.Background()], whatever context the caller passed,
    and does nothing else: no call to the token manager or the network is
    made by the read itself, the value returned does not depend on how
    the background refresh ends, and a background refresh that fails
    leaves the cache as the reader saw it. *)
Theorem C2_stale_read_serves_and_refreshes (now : Z) (ctx : Context)
    (c : ModelsCache) :
  ttl c < time.Since now (lastFetch c) ->
  (modelsJSON c <> [] ->
     result (GetModels now ctx c) = (modelsJSON c, None)) /\
  (modelsJSON c = [] ->
     result (GetModels now ctx c)
       = ([], Some (errors_New "models not available"))) /\
  trace (GetModels now ctx c)
    = [mu_RLock; mu_RUnlock; go_refresh context_Background] /\
  forallb (fun e => negb (is_network e)) (trace (GetModels now ctx c)) = true /\
  after (GetModels now ctx c) = c /\
  (forall w,
     result (GetModels_with_background w now ctx c)
       = result (GetModels now ctx c) /\
     after (GetModels_with_background w now ctx c)
       = after (refresh w context_Background c) /\
     (result (refresh w context_Background c) <> None ->
      after (GetModels_with_background w now ctx c) = c)).
Proof.
  intros Hexp. pose proof (GetModels_expired now ctx c Hexp) as HG.
  split; [|split; [|split; [|split; [|split]]]].
  - intros Hblob. apply length_pos_bytes in Hblob.
    rewrite HG. unfold result; cbn. by rewrite Hblob.
  - intros Hblob. rewrite HG. unfold result; cbn. by rewrite Hblob.
  - by rewrite HG.
  - by rewrite HG.
  - by rewrite HG.
  - intros w. unfold GetModels_with_background. rewrite HG.
    unfold trace, after, result; cbn.
    pose proof (refresh_failure_keeps w context_Background c) as Hkeep.
    unfold after, result in Hkeep.
    destruct (refresh w context_Background c) as [[r c1] t1]; cbn in *.
    split; [done|]. split; [done|]. intros Hfail. by apply Hkeep.
Qed.

(** Scenario C: the blob is older than ten minutes and the refresh that
    the read starts gets a 500. *)
Lemma C2_stale_read_serves_and_refreshes_witness :
  result (GetModels (1001 + ten_minutes) (context_Caller 7) sample_cache)
    = (sample_models, None) /\
  trace (GetModels (1001 + ten_minutes) (context_Caller 7) sample_cache)
    = [mu_RLock; mu_RUnlock; go_refresh context_Background] /\
  after (GetModels_with_background
           (world_answering 500 "500 Internal Server Error" [] 0)
           (1001 + ten_minutes) (context_Caller 7) sample_cache)
    = sample_cache.
Proof.
  destruct (C2_stale_read_serves_and_refreshes
              (1001 + ten_minutes) (context_Caller 7) sample_cache)
    as (Hblob & _ & Htrace & _ & _ & Hbg).
  - vm_compute. reflexivity.
  - split; [apply Hblob; discriminate|].
    split; [exact Htrace|].
    apply (Hbg (world_answering 500 "500 Internal Server Error" [] 0)).
    vm_compute. discriminate.
Defined.

(** C4: a read of a blob whose age is within the TTL returns exactly
    the stored bytes and a nil error; it takes and releases the read
    lock and does nothing else: no goroutine is started, nothing is
    fetched, the cache is as before. *)
Theorem C4_fresh_read_returns_blob (now : Z) (ctx : Context)
    (c : ModelsCache) :
  modelsJSON c <> [] ->
  time.Since now (lastFetch c) <= ttl c ->
  result (GetModels now ctx c) = (modelsJSON c, None) /\
  trace (GetModels now ctx c) = [mu_RLock; mu_RUnlock] /\
  forallb (fun e => negb (is_network e || is_go e))
    (trace (GetModels now ctx c)) = true /\
  after (GetModels now ctx c) = c.
Proof.
  intros Hblob Hfresh. apply length_pos_bytes in Hblob.
  assert ((ttl c <? time.Since now (lastFetch c)) = false) as Hexp
    by (apply Z.ltb_ge; lia).
  run_M. rewrite Hexp, Hblob. done.
Qed.

Lemma C4_fresh_read_returns_blob_witness :
  result (GetModels (1000 + ten_minutes) (context_Caller 7) sample_cache)
    = (sample_models, None) /\
  trace (GetModels (1000 + ten_minutes) (context_Caller 7) sample_cache)
    = [mu_RLock; mu_RUnlock].
Proof.
  destruct (C4_fresh_read_returns_blob
              (1000 + ten_minutes) (context_Caller 7) sample_cache)
    as (Hres & Htrace & _).
  - discriminate.
  - vm_compute. discriminate.
  - split; [exact Hres | exact Htrace].
Defined.


(** ** Construction *)

(** The events of any refresh hold one call to the token manager and at
    most one request. *)
Lemma refresh_calls_once (w : World) (ctx : Context) (c : ModelsCache) :
  count_events is_GetToken (trace (refresh w ctx c)) = 1%nat /\
  (count_events is_Do (trace (refresh w ctx c)) <= 1)%nat /\
  (result (refresh w ctx c) = None ->
   count_events is_Do (trace (refresh w ctx c)) = 1%nat).
Proof.
  run_M.
  destruct (GetToken w (tokenManager c) ctx) as [token|e]; cbn;
    [|by repeat split; auto].
  destruct (NewRequestWithContext w ctx "GET" modelsURL); cbn;
    [by repeat split; auto|].
  destruct (Do w (httpClient c) (build_request ctx token)) as [resp|e]; cbn;
    [|by repeat split; auto].
  destruct (StatusCode resp =? 200); cbn; [|by repeat split; auto].
  destruct (Body resp) as [data [e|]]; cbn; [by repeat split; auto|].
  destruct (json.Unmarshal data); cbn; by repeat split; auto.
Qed.

(** [NewModelsCache] is [refresh] on the struct literal. *)
Lemma NewModelsCache_unfold (w : World) (ctx : Context) (tm : TokenManager)
    (ttl0 : Z) (client : option Client) :
  NewModelsCache w ctx tm ttl0 client =
    match refresh w ctx (mkModelsCache [] time.zero ttl0 tm
                           (default http_DefaultClient client)) with
    | (Some e, _, t) => (inr e, t)
    | (None, cache', t) => (inl cache', t)
    end.
Proof. by destruct client. Qed.

(** C6: [NewModelsCache] runs [refresh] once on the cache it has just
    built (one call to the token manager, at most one request) before it
    returns; when that refresh fails its error is returned and no cache;
    a cache is returned only after a refresh that succeeded with one
    request, and then it holds a blob: bytes that are not empty, that
    [json.Unmarshal] accepts, fetched at the time of that refresh. *)
Theorem C6_construction_needs_first_fetch (w : World) (ctx : Context)
    (tm : TokenManager) (ttl0 : Z) (client : option Client) :
  let seed :=
    mkModelsCache [] time.zero ttl0 tm (default http_DefaultClient client) in
  snd (NewModelsCache w ctx tm ttl0 client) = trace (refresh w ctx seed) /\
  count_events is_GetToken (snd (NewModelsCache w ctx tm ttl0 client)) = 1%nat /\
  (count_events is_Do (snd (NewModelsCache w ctx tm ttl0 client)) <= 1)%nat /\
  (forall e, result (refresh w ctx seed) = Some e ->
     fst (NewModelsCache w ctx tm ttl0 client) = inr e) /\
  (forall cache, fst (NewModelsCache w ctx tm ttl0 client) = inl cache ->
     result (refresh w ctx seed) = None /\
     cache = after (refresh w ctx seed) /\
     count_events is_Do (snd (NewModelsCache w ctx tm ttl0 client)) = 1%nat /\
     holds_blob cache /\
     lastFetch cache = Now w /\ ttl cache = ttl0).
Proof.
  intros seed. rewrite NewModelsCache_unfold. fold seed.
  destruct (refresh_calls_once w ctx seed) as (Htok & Hdo & Hdo1).
  pose proof (refresh_success w ctx seed) as Hsucc.
  unfold trace, result, after in *.
  destruct (refresh w ctx seed) as [[[e|] c1] t1]; cbn [fst snd] in *.
  - repeat split; try done. by intros e' [= ->].
  - destruct (Hsucc eq_refl)
      as (token & resp & data & _ & _ & _ & _ & _ & HU & Hcommit & _).
    split; [done|]. split; [done|]. split; [done|]. split; [done|].
    intros cache [= <-]. subst c1.
    repeat split; auto.
    cbn. by apply Unmarshal_accepts_nonempty.
Qed.

(** Scenario B and Scenario A: a 401 on the first fetch gives an error
    and no cache; a models object on the first fetch gives a cache that
    holds it. *)
Lemma C6_construction_needs_first_fetch_witness :
  fst (NewModelsCache (world_answering 401 "401 Unauthorized" [] 5000)
         context_Background (TokenManager_at 0) ten_minutes None)
    = inr (Errorf_models_API "401 Unauthorized" []) /\
  holds_blob (committed empty_cache sample_models 5000).
Proof.
  split.
  - apply (proj1 (proj2 (proj2 (proj2 (C6_construction_needs_first_fetch
       (world_answering 401 "401 Unauthorized" [] 5000)
       context_Background (TokenManager_at 0) ten_minutes None))))).
    reflexivity.
  - apply (proj2 (proj2 (proj2 (proj2 (C6_construction_needs_first_fetch
       (world_answering 200 "200 OK" sample_models 5000)
       context_Background (TokenManager_at 0) ten_minutes None))))
       (committed empty_cache sample_models 5000)).
    reflexivity.
Defined.

(** ** Persistence *)

(** What [SaveToFile] does, by the blob. *)
Lemma SaveToFile_cases (flt : os.Fault) (fs : gmap string (list byte))
    (path : string) (c : ModelsCache) :
  SaveToFile flt fs path c =
    match modelsJSON c with
    | [] =>
        ((Some (errors_New "no models to save"), fs), c,
         [mu_RLock; mu_RUnlock])
    | _ =>
        (os.WriteFile flt fs path (modelsJSON c), c,
         [mu_RLock; call_WriteFile path (modelsJSON c) 420; mu_RUnlock])
    end.
Proof. run_M. by destruct (modelsJSON c). Qed.

(** C8: without a blob [SaveToFile] returns "no models to save", calls
    no write and leaves the files as they are; with a blob it makes one
    call [os.WriteFile(path, c.modelsJSON, 0644)] with the bytes of the
    blob themselves, and when that call succeeds the file at [path]
    holds exactly those bytes.  The cache is not changed. *)
Theorem C8_save_writes_blob_verbatim (flt : os.Fault)
    (fs : gmap string (list byte)) (path : string) (c : ModelsCache) :
  after (SaveToFile flt fs path c) = c /\
  (modelsJSON c = [] ->
     result (SaveToFile flt fs path c)
       = (Some (errors_New "no models to save"), fs) /\
     count_events is_WriteFile (trace (SaveToFile flt fs path c)) = 0%nat) /\
  (modelsJSON c <> [] ->
     trace (SaveToFile flt fs path c)
       = [mu_RLock; call_WriteFile path (modelsJSON c) 420; mu_RUnlock] /\
     result (SaveToFile flt fs path c)
       = os.WriteFile flt fs path (modelsJSON c) /\
     (fst (result (SaveToFile flt fs path c)) = None ->
      snd (result (SaveToFile flt fs path c)) !! path = Some (modelsJSON c))).
Proof.
  rewrite SaveToFile_cases. split; [by destruct (modelsJSON c)|]. split.
  - by intros ->.
  - intros Hblob. destruct (modelsJSON c) as [|b l] eqn:Hm; [done|].
    unfold trace, result; cbn [fst snd]. split; [done|]. split; [done|].
    destruct flt; cbn; [|done..].
    intros _. apply lookup_insert_eq.
Qed.

(** Scenario D, and a save of the sample cache into an empty directory. *)
Lemma C8_save_writes_blob_verbatim_witness :
  result (SaveToFile os.no_fault ∅ "models.json" empty_cache)
    = (Some (errors_New "no models to save"), ∅) /\
  snd (result (SaveToFile os.no_fault ∅ "models.json" sample_cache))
    !! "models.json" = Some sample_models.
Proof.
  split.
  - apply (proj1 (proj2 (C8_save_writes_blob_verbatim
                           os.no_fault ∅ "models.json" empty_cache))).
    reflexivity.
  - apply (proj2 (proj2 (C8_save_writes_blob_verbatim
                           os.no_fault ∅ "models.json" sample_cache))).
    + discriminate.
    + reflexivity.
Defined.

(** With a blob and no fault of the file system the save succeeds and
    the file holds the blob. *)
Lemma SaveToFile_succeeds (fs : gmap string (list byte)) (path : string)
    (c : ModelsCache) :
  modelsJSON c <> [] ->
  result (SaveToFile os.no_fault fs path c)
    = (None, <[path := modelsJSON c]> fs).
Proof.
  intros Hblob. rewrite SaveToFile_cases.
  by destruct (modelsJSON c).
Qed.

(** A blob that was validated can be read back: after a save that
    succeeded, a load without fault succeeds. *)
Lemma save_then_load_succeeds (flt : os.Fault) (fs fs' : gmap string (list byte))
    (path : string) (now : Z) (c1 c2 : ModelsCache) :
  json.Unmarshal (modelsJSON c1) = None ->
  result (SaveToFile flt fs path c1) = (None, fs') ->
  result (LoadFromFile os.no_fault fs' path now c2) = None.
Proof.
  intros HU. rewrite SaveToFile_cases.
  destruct (modelsJSON c1) as [|b l] eqn:Hm; unfold result; cbn [fst snd];
    [done|].
  destruct flt; cbn; [|done..]. intros [= <-].
  rewrite (LoadFromFile_on_data _ _ _ _ _ (b :: l)).
  - by rewrite HU.
  - unfold os.ReadFile. by rewrite lookup_insert_eq.
Qed.

(** C7: when [SaveToFile] of a cache succeeded and [LoadFromFile] of the
    same path then succeeds, on any cache, the file and the loaded blob
    are the saved blob byte for byte, and the fetch time of the loading
    cache is the time of the load, not the one of the saved cache. *)
Theorem C7_save_load_round_trip (flt1 flt2 : os.Fault)
    (fs fs' : gmap string (list byte)) (path : string) (now : Z)
    (c1 c2 : ModelsCache) :
  result (SaveToFile flt1 fs path c1) = (None, fs') ->
  result (LoadFromFile flt2 fs' path now c2) = None ->
  modelsJSON c1 <> [] /\
  fs' !! path = Some (modelsJSON c1) /\
  modelsJSON (after (LoadFromFile flt2 fs' path now c2)) = modelsJSON c1 /\
  lastFetch (after (LoadFromFile flt2 fs' path now c2)) = now.
Proof.
  rewrite SaveToFile_cases.
  destruct (modelsJSON c1) as [|b l] eqn:Hm; unfold result at 1; cbn [fst snd];
    [done|].
  destruct flt1; cbn; [|done..]. intros [= <-] Hload.
  assert (os.ReadFile flt2 (<[path:=b :: l]> fs) path = (b :: l, None)) as HR.
  { revert Hload. run_M. unfold os.ReadFile. rewrite lookup_insert_eq.
    destruct flt2; cbn; done. }
  rewrite (LoadFromFile_on_data _ _ _ _ _ _ HR) in Hload |- *.
  destruct (json.Unmarshal (b :: l)); [done|].
  split; [done|]. split; [apply lookup_insert_eq|]. done.
Qed.

(** The sample cache, fetched at 1000, is saved and loaded at 8000 into
    an empty cache. *)
Lemma C7_save_load_round_trip_witness :
  modelsJSON (after (LoadFromFile os.no_fault {["models.json" := sample_models]}
                       "models.json" 8000 empty_cache)) = sample_models /\
  lastFetch (after (LoadFromFile os.no_fault {["models.json" := sample_models]}
                       "models.json" 8000 empty_cache)) = 8000.
Proof.
  destruct (C7_save_load_round_trip os.no_fault os.no_fault ∅
              {["models.json" := sample_models]} "models.json" 8000
              sample_cache empty_cache)
    as (_ & _ & Hblob & Htime).
  - reflexivity.
  - reflexivity.
  - split; [exact Hblob | exact Htime].
Defined.

(** ** The blob of a constructed cache *)

(** Every method keeps a blob that is held. *)
Lemma refresh_keeps_blob (w : World) (ctx : Context) (c : ModelsCache) :
  holds_blob c -> holds_blob (after (refresh w ctx c)).
Proof.
  intros Hc.
  destruct (result (refresh w ctx c)) as [e|] eqn:Hres.
  - assert (result (refresh w ctx c) <> None) as Hfail by congruence.
    apply refresh_failure_keeps in Hfail as [-> _]. exact Hc.
  - destruct (refresh_success w ctx c Hres)
      as (token & resp & data & _ & _ & _ & _ & _ & HU & -> & _).
    split; cbn; [by apply Unmarshal_accepts_nonempty | exact HU].
Qed.

Lemma GetModels_keeps_cache (now : Z) (ctx : Context) (c : ModelsCache) :
  after (GetModels now ctx c) = c.
Proof.
  run_M.
  destruct (negb (ttl c <? time.Since now (lastFetch c))
            && (0 <? Z.of_nat (length (modelsJSON c)))); cbn; [done|].
  by destruct (0 <? Z.of_nat (length (modelsJSON c))).
Qed.

Lemma LoadFromFile_keeps_blob (flt : os.Fault) (fs : gmap string (list byte))
    (path : string) (now : Z) (c : ModelsCache) :
  holds_blob c -> holds_blob (after (LoadFromFile flt fs path now c)).
Proof.
  intros Hc.
  destruct (os.ReadFile flt fs path) as [data [e|]] eqn:HR.
  - run_M. by rewrite HR.
  - rewrite (LoadFromFile_on_data _ _ _ _ _ _ HR).
    destruct (json.Unmarshal data) eqn:HU; [exact Hc|].
    split; cbn; [by apply Unmarshal_accepts_nonempty | exact HU].
Qed.

Lemma SaveToFile_keeps_cache (flt : os.Fault) (fs : gmap string (list byte))
    (path : string) (c : ModelsCache) :
  after (SaveToFile flt fs path c) = c.
Proof. rewrite SaveToFile_cases. by destruct (modelsJSON c). Qed.

(** A cache that [NewModelsCache] returned holds a blob. *)
Lemma NewModelsCache_holds_blob (w : World) (ctx : Context) (tm : TokenManager)
    (ttl0 : Z) (client : option Client) (c : ModelsCache) (t : list Event) :
  NewModelsCache w ctx tm ttl0 client = (inl c, t) -> holds_blob c.
Proof.
  rewrite NewModelsCache_unfold.
  set (seed := mkModelsCache [] time.zero ttl0 tm
                 (default http_DefaultClient client)).
  pose proof (refresh_success w ctx seed) as Hsucc.
  unfold result, after in Hsucc.
  destruct (refresh w ctx seed) as [[[e|] c1] t1]; cbn [fst snd] in *; [done|].
  intros [= <- <-].
  destruct (Hsucc eq_refl)
    as (token & resp & data & _ & _ & _ & _ & _ & HU & -> & _).
  split; cbn; [by apply Unmarshal_accepts_nonempty | exact HU].
Qed.

(** C9: no bytes are not JSON, and every cache that construction
    returned, after any sequence of [refresh], [GetModels], [SaveToFile]
    and [LoadFromFile] calls with any answers of the world, holds a blob
    that is not empty, that [json.Unmarshal] accepts and that is
    well-formed JSON text. *)
Theorem C9_blob_stays_valid :
  json.Unmarshal [] <> None /\
  forall c, reachable c ->
    modelsJSON c <> [] /\
    json.Unmarshal (modelsJSON c) = None /\
    json.well_formed (modelsJSON c) = true.
Proof.
  split; [by rewrite Unmarshal_empty|].
  assert (forall c, reachable c -> holds_blob c) as Hinv.
  { induction 1 as [w ctx tm ttl0 client c t Hnew|w ctx c _ IH|now ctx c _ IH
                    |flt fs path c _ IH|flt fs path now c _ IH].
    - by eapply NewModelsCache_holds_blob.
    - by apply refresh_keeps_blob.
    - by rewrite GetModels_keeps_cache.
    - by rewrite SaveToFile_keeps_cache.
    - by apply LoadFromFile_keeps_blob. }
  intros c Hc. destruct (Hinv c Hc) as [Hne HU].
  split; [done|]. split; [done|]. by apply Unmarshal_well_formed.
Qed.

(** A cache built from the sample models, then a refresh that gets a
    500, then a load of a file holding an array. *)
Lemma C9_blob_stays_valid_witness :
  modelsJSON (after (LoadFromFile os.no_fault {["models.json" := sample_array]}
     "models.json" 9000
     (after (refresh (world_answering 500 "500 Internal Server Error" [] 7000)
               context_Background
               (committed empty_cache sample_models 5000))))) <> [] /\
  json.Unmarshal
    (modelsJSON (after (LoadFromFile os.no_fault {["models.json" := sample_array]}
     "models.json" 9000
     (after (refresh (world_answering 500 "500 Internal Server Error" [] 7000)
               context_Background
               (committed empty_cache sample_models 5000)))))) = None.
Proof.
  destruct (proj2 C9_blob_stays_valid
    (after (LoadFromFile os.no_fault {["models.json" := sample_array]}
       "models.json" 9000
       (after (refresh (world_answering 500 "500 Internal Server Error" [] 7000)
                 context_Background
                 (committed empty_cache sample_models 5000))))))
    as (Hne & HU & _).
  - apply reach_LoadFromFile, reach_refresh.
    apply (reach_new (world_answering 200 "200 OK" sample_models 5000)
             context_Background (TokenManager_at 0) ten_minutes None
             (committed empty_cache sample_models 5000)
             (refresh_trace_ok empty_cache context_Background "tok"
                sample_models 5000)).
    reflexivity.
  - split; [exact Hne | exact HU].
Defined.

(** ** The proxy *)

(** The first value that is not empty, and those before it are. *)
Lemma first_non_empty_spec (values : list string) :
  (config.first_non_empty values = "" /\ Forall (fun v => v = "") values) \/
  (exists before v rest,
     values = before ++ v :: rest /\ Forall (fun v => v = "") before /\
     v <> "" /\ config.first_non_empty values = v).
Proof.
  induction values as [|v values IH]; cbn.
  - left. by split.
  - destruct (String.eqb_spec v "") as [->|Hv].
    + destruct IH as [[Hnone Hall]|(before & v' & rest & -> & Hall & Hv' & Hfirst)].
      * left. split; [done|]. by constructor.
      * right. exists ("" :: before), v', rest.
        repeat split; try done. by constructor.
    + right. by exists [], v, values.
Qed.

Lemma getEnv_default (env : gmap string string) (k : string) :
  config.getEnv env k "" = default "" (env !! k).
Proof. unfold config.getEnv. by destruct (env !! k). Qed.

(** C10: for every environment, the proxy that [Load] stores in the
    configuration and hands to the HTTP client is the first value that
    is not empty among HTTPS_PROXY, https_proxy, HTTP_PROXY, http_proxy,
    ALL_PROXY, all_proxy, taken in this order with an unset variable
    counting as empty, and the empty string when there is none. *)
Theorem C10_proxy_precedence (env : gmap string string) :
  config.Load_httpProxy env = config.proxy_by_precedence env /\
  config.proxy_variables
    = ["HTTPS_PROXY"; "https_proxy"; "HTTP_PROXY"; "http_proxy";
       "ALL_PROXY"; "all_proxy"] /\
  (config.Load_httpProxy env = "" <->
   Forall (fun k => default "" (env !! k) = "") config.proxy_variables) /\
  (config.Load_httpProxy env <> "" ->
   exists before k rest,
     config.proxy_variables = before ++ k :: rest /\
     Forall (fun k' => default "" (env !! k') = "") before /\
     env !! k = Some (config.Load_httpProxy env)).
Proof.
  assert (config.Load_httpProxy env = config.proxy_by_precedence env) as Heq.
  { unfold config.Load_httpProxy, config.proxy_by_precedence,
      config.proxy_variables; cbn [map config.first_non_empty].
    rewrite !getEnv_default.
    repeat match goal with
           | |- context [default "" (env !! ?k)] =>
               let v := fresh "v" in
               generalize (default "" (env !! k)); intros v
           end.
    repeat match goal with
           | |- context [String.eqb ?v ""] =>
               is_var v;
               destruct (String.eqb_spec v ""); subst; cbn; try done
           end. }
  split; [exact Heq|]. split; [reflexivity|].
  rewrite Heq. unfold config.proxy_by_precedence.
  destruct (first_non_empty_spec
              (map (fun k => default "" (env !! k)) config.proxy_variables))
    as [[Hnone Hall]|(before & v & rest & Hsplit & Hall & Hv & Hfirst)].
  - split.
    + split; [|done]. intros _. by apply List.Forall_map in Hall.
    + by rewrite Hnone.
  - split.
    + split; [intros He; congruence|].
      intros Hall'.
      apply (proj2 (List.Forall_map (fun k => default "" (env !! k))
                      (fun v => v = "") _)) in Hall'.
      rewrite Hsplit in Hall'.
      apply Forall_app in Hall' as [_ Hall'].
      apply Forall_cons in Hall' as [Hv' _]. done.
    + intros _. rewrite Hfirst.
      apply map_eq_app in Hsplit as (ks1 & ks2 & Hks & Hb & Hrest).
      destruct ks2 as [|k ks2]; [done|]. cbn in Hrest.
      injection Hrest as Hk Hrest'.
      exists ks1, k, ks2. split; [done|]. split.
      * subst before. by apply List.Forall_map in Hall.
      * destruct (env !! k) as [val|]; cbn in Hk; by subst.
Qed.

(** HTTPS_PROXY is set but empty, https_proxy and HTTP_PROXY are unset:
    http_proxy wins over ALL_PROXY. *)
Lemma C10_proxy_precedence_witness :
  exists before k rest,
    config.proxy_variables = before ++ k :: rest /\
    Forall (fun k' =>
              default "" (({["HTTPS_PROXY" := ""; "http_proxy" := "http://a:3128";
                             "ALL_PROXY" := "socks5://b:1080"]}
                           : gmap string string) !! k') = "") before /\
    ({["HTTPS_PROXY" := ""; "http_proxy" := "http://a:3128";
       "ALL_PROXY" := "socks5://b:1080"]} : gmap string string) !! k
      = Some (config.Load_httpProxy
                {["HTTPS_PROXY" := ""; "http_proxy" := "http://a:3128";
                  "ALL_PROXY" := "socks5://b:1080"]}).
Proof.
  apply (proj2 (proj2 (proj2 (C10_proxy_precedence
    {["HTTPS_PROXY" := ""; "http_proxy" := "http://a:3128";
      "ALL_PROXY" := "socks5://b:1080"]})))).
  vm_compute. discriminate.
Defined.

(** ** Checks on concrete inputs *)

Example scenario_A_payload_is_valid : json.Unmarshal sample_models = None.
Proof. reflexivity. Qed.

Example scalars_are_valid :
  json.Unmarshal (bytes_of "null") = None /\
  json.Unmarshal (bytes_of " -12.5e3 ") = None /\
  json.Unmarshal (double_quote ++ bytes_of "gpt-4" ++ double_quote) = None.
Proof. repeat split. Qed.

Example malformed_is_rejected :
  json.Unmarshal (bytes_of "[1,2,") = Some (SyntaxError unexpected_end 5) /\
  json.Unmarshal (bytes_of "{} x")
    = Some (SyntaxError (invalid_character "x" "after top-level value") 4) /\
  json.Unmarshal (bytes_of "01")
    = Some (SyntaxError (invalid_character "1" "after top-level value") 2).
Proof. repeat split. Qed.

Example number_out_of_range_is_rejected :
  json.well_formed (bytes_of "[1e400]") = true /\
  json.Unmarshal (bytes_of "[1e400]")
    = Some (UnmarshalTypeError "number 1e400" "float64" 7) /\
  json.Unmarshal (bytes_of "1.7976931348623157e308") = None.
Proof. repeat split. Qed.

Example proxy_of_sample_environment :
  config.Load_httpProxy
    {["HTTPS_PROXY" := ""; "http_proxy" := "http://a:3128";
      "ALL_PROXY" := "socks5://b:1080"]} = "http://a:3128".
Proof. reflexivity. Qed.

(** ** More on [GetModels] *)

(** The three ways through [GetModels]. *)
Lemma GetModels_cases (now : Z) (ctx : Context) (c : ModelsCache) :
  (time.Since now (lastFetch c) <= ttl c /\ modelsJSON c <> [] /\
   GetModels now ctx c = ((modelsJSON c, None), c, [mu_RLock; mu_RUnlock])) \/
  (ttl c < time.Since now (lastFetch c) /\ modelsJSON c <> [] /\
   GetModels now ctx c
     = ((modelsJSON c, None), c,
        [mu_RLock; mu_RUnlock; go_refresh context_Background])) \/
  (modelsJSON c = [] /\
   GetModels now ctx c
     = (([], Some (errors_New "models not available")), c,
        [mu_RLock; mu_RUnlock; go_refresh context_Background])).
Proof.
  destruct (modelsJSON c) as [|b l] eqn:Hm.
  - right; right. split; [done|]. run_M. rewrite Hm; cbn.
    by rewrite andb_false_r.
  - assert ((0 <? Z.of_nat (length (modelsJSON c))) = true) as Hlen
      by (apply length_pos_bytes; congruence).
    destruct (Z.ltb_spec (ttl c) (time.Since now (lastFetch c))) as [Hexp|Hfresh].
    + right; left. split; [done|]. split; [done|].
      apply Z.ltb_lt in Hexp. run_M. rewrite Hexp, Hlen; cbn. by rewrite Hm.
    + left. split; [done|]. split; [done|].
      apply Z.ltb_ge in Hfresh. run_M. rewrite Hfresh, Hlen; cbn. by rewrite Hm.
Qed.

(** [GetModels] in full: it never changes the cache; it returns the
    stored blob with a nil error exactly when the blob is not empty and
    the error "models not available" otherwise; it starts a goroutine,
    one and under [context.Background()], exactly when the entry is
    expired or the blob is empty, so also for a cache within its TTL
    that holds no blob. *)
Theorem GetModels_error_and_refresh_conditions (now : Z) (ctx : Context)
    (c : ModelsCache) :
  after (GetModels now ctx c) = c /\
  (modelsJSON c <> [] -> result (GetModels now ctx c) = (modelsJSON c, None)) /\
  (modelsJSON c = [] ->
     result (GetModels now ctx c)
       = ([], Some (errors_New "models not available")) /\
     trace (GetModels now ctx c)
       = [mu_RLock; mu_RUnlock; go_refresh context_Background]) /\
  (count_events is_go (trace (GetModels now ctx c)) = 1%nat <->
     ttl c < time.Since now (lastFetch c) \/ modelsJSON c = []) /\
  (count_events is_go (trace (GetModels now ctx c)) = 0%nat <->
     time.Since now (lastFetch c) <= ttl c /\ modelsJSON c <> []) /\
  (forall ctx', In (go_refresh ctx') (trace (GetModels now ctx c)) ->
     ctx' = context_Background).
Proof.
  destruct (GetModels_cases now ctx c)
    as [(Hfresh & Hblob & ->)|[(Hexp & Hblob & ->)|(Hblob & ->)]];
    unfold after, result, trace; cbn.
  all: repeat split; try done; try lia; try (by left); try (by right).
  all: try (intros [H|H]; [lia|done]).
  all: try (intros [_ H]; done).
  all: intros ctx' Hin; repeat (destruct Hin as [Hin|Hin]; try congruence).
  all: done.
Qed.

(** The empty cache within its TTL: the read fails and still starts a
    refresh. *)
Lemma GetModels_error_and_refresh_conditions_witness :
  result (GetModels 5 (context_Caller 1) empty_cache)
    = ([], Some (errors_New "models not available")) /\
  trace (GetModels 5 (context_Caller 1) empty_cache)
    = [mu_RLock; mu_RUnlock; go_refresh context_Background].
Proof.
  apply (proj1 (proj2 (proj2 (GetModels_error_and_refresh_conditions
                                5 (context_Caller 1) empty_cache)))).
  reflexivity.
Defined.

(** ** More on [refresh] *)

(** The ways through [refresh], with the events of each. *)
Lemma refresh_trace_cases (w : World) (ctx : Context) (c : ModelsCache) :
  let tm := tokenManager c in
  let cl := httpClient c in
  (exists e, GetToken w tm ctx = inr e /\
     trace (refresh w ctx c) = [call_GetToken tm ctx]) \/
  (exists token e, GetToken w tm ctx = inl token /\
     NewRequestWithContext w ctx "GET" modelsURL = Some e /\
     trace (refresh w ctx c) = [call_GetToken tm ctx; call_NewRequest ctx]) \/
  (exists token e, GetToken w tm ctx = inl token /\
     NewRequestWithContext w ctx "GET" modelsURL = None /\
     Do w cl (build_request ctx token) = inr e /\
     trace (refresh w ctx c)
       = [call_GetToken tm ctx; call_NewRequest ctx;
          call_Do cl (build_request ctx token)]) \/
  (exists token resp, GetToken w tm ctx = inl token /\
     upstream_answers w ctx c resp /\
     result (refresh w ctx c) <> None /\
     trace (refresh w ctx c)
       = [call_GetToken tm ctx; call_NewRequest ctx;
          call_Do cl (build_request ctx token); call_ReadAll;
          call_Body_Close]) \/
  (exists token resp data, GetToken w tm ctx = inl token /\
     upstream_answers w ctx c resp /\
     result (refresh w ctx c) = None /\
     trace (refresh w ctx c) = refresh_trace_ok c ctx token data (Now w)).
Proof.
  intros tm cl. subst tm cl. run_M.
  destruct (GetToken w (tokenManager c) ctx) as [token|e] eqn:HT; cbn.
  2:{ left. by exists e. }
  destruct (NewRequestWithContext w ctx "GET" modelsURL) as [e|] eqn:HR; cbn.
  { right; left. by exists token, e. }
  destruct (Do w (httpClient c) (build_request ctx token)) as [resp|e] eqn:HD;
    cbn.
  2:{ right; right; left. by exists token, e. }
  assert (upstream_answers w ctx c resp) as Hup by (by exists token).
  destruct (StatusCode resp =? 200); cbn.
  2:{ right; right; right; left. by exists token, resp. }
  destruct (Body resp) as [data [e|]]; cbn.
  { right; right; right; left. by exists token, resp. }
  destruct (json.Unmarshal data); cbn.
  { right; right; right; left. by exists token, resp. }
  right; right; right; right. by exists token, resp, data.
Qed.

(** [refresh] sends a request only once it holds a token, and what it
    sends is a GET of the models URL under the context it was given,
    through the client of the cache, with the four headers and the token
    it has just been handed as bearer. *)
Theorem refresh_request_carries_token (w : World) (ctx : Context)
    (c : ModelsCache) (client : Client) (req : Request) :
  In (call_Do client req) (trace (refresh w ctx c)) ->
  client = httpClient c /\
  exists token,
    GetToken w (tokenManager c) ctx = inl token /\
    Method req = "GET" /\
    URL req = "https://api.githubcopilot.com/models" /\
    req_ctx req = ctx /\
    Header req !! "Authorization" = Some ("Bearer " +:+ token) /\
    Header req !! "Accept" = Some "application/json" /\
    Header req !! "Editor-Version" = Some "vscode/1.95.0" /\
    Header req !! "Copilot-Integration-Id" = Some "vscode-chat" /\
    dom (Header req)
      = ({["Accept"; "Authorization"; "Editor-Version";
           "Copilot-Integration-Id"]} : gset string).
Proof.
  intros Hin.
  assert (exists token, GetToken w (tokenManager c) ctx = inl token /\
            client = httpClient c /\ req = build_request ctx token)
    as (token & HT & -> & ->).
  { destruct (refresh_trace_cases w ctx c)
      as [(e & _ & Ht)|[(token & e & _ & _ & Ht)|[(token & e & HT & _ & _ & Ht)
          |[(token & resp & HT & _ & _ & Ht)
           |(token & resp & data & HT & _ & _ & Ht)]]]];
      rewrite Ht in Hin; unfold refresh_trace_ok in Hin; cbn in Hin;
      repeat (destruct Hin as [Hin|Hin]; try discriminate Hin); try done;
      injection Hin as <- <-; by exists token. }
  split; [done|]. exists token. split; [done|].
  unfold build_request; cbn.
  repeat split; try done; by simplify_map_eq.
Qed.

Lemma refresh_request_carries_token_witness :
  exists token,
    GetToken (world_answering 200 "200 OK" sample_models 5000)
      (tokenManager sample_cache) (context_Caller 3) = inl token /\
    Header (build_request (context_Caller 3) "tok") !! "Authorization"
      = Some ("Bearer " +:+ token).
Proof.
  destruct (refresh_request_carries_token
              (world_answering 200 "200 OK" sample_models 5000)
              (context_Caller 3) sample_cache http_DefaultClient
              (build_request (context_Caller 3) "tok"))
    as (_ & token & HT & _ & _ & _ & Hauth & _).
  - vm_compute. right; right; left. reflexivity.
  - exists token. split; [exact HT | exact Hauth].
Defined.

(** The body of a response is closed once, as the last thing [refresh]
    does, on every path on which the transport returned a response, the
    failing ones included; without a response nothing is closed. *)
Theorem refresh_closes_body_once (w : World) (ctx : Context)
    (c : ModelsCache) :
  ((exists resp, upstream_answers w ctx c resp) <->
   count_events is_Body_Close (trace (refresh w ctx c)) = 1%nat) /\
  ((~ exists resp, upstream_answers w ctx c resp) <->
   count_events is_Body_Close (trace (refresh w ctx c)) = 0%nat) /\
  (forall resp, upstream_answers w ctx c resp ->
   last (trace (refresh w ctx c)) = Some call_Body_Close).
Proof.
  destruct (refresh_trace_cases w ctx c)
    as [(e & HT & Ht)|[(token & e & HT & HR & Ht)
        |[(token & e & HT & HR & HD & Ht)
         |[(token & resp & HT & Hup & _ & Ht)
          |(token & resp & data & HT & Hup & _ & Ht)]]]];
    rewrite Ht; unfold refresh_trace_ok; cbn.
  1-3: assert (~ exists resp, upstream_answers w ctx c resp) as Hno
         by (intros (resp & token' & HT' & HR' & HD'); congruence).
  1-3: split; [split; [done|done] | split; [done|]];
       intros resp Hup; destruct Hno; by exists resp.
  all: split; [split; [done|by exists resp] | split; [|done]].
  all: split; [intros Hno; destruct Hno; by exists resp | done].
Qed.

Lemma refresh_closes_body_once_witness :
  last (trace (refresh
     (world_answering 500 "500 Internal Server Error" [] 9000)
     context_Background sample_cache)) = Some call_Body_Close.
Proof.
  apply (proj2 (proj2 (refresh_closes_body_once
     (world_answering 500 "500 Internal Server Error" [] 9000)
     context_Background sample_cache))
     (mkResponse 500 "500 Internal Server Error" ([], None))).
  exists "tok"%string. repeat split.
Defined.

(** ** The mutex *)

(** Every method takes and releases the mutex in pairs and ends with it
    free, and a field of the cache is written only under the write lock.
    [refresh], [GetModels] and [LoadFromFile] call the token manager,
    the network and the file system only while they hold no lock;
    [SaveToFile] of a blob does not: it writes the file while it holds
    the read lock. *)
Theorem methods_respect_the_mutex (c : ModelsCache) :
  (forall w ctx,
     lock_run true Unlocked (trace (refresh w ctx c)) = Some Unlocked) /\
  (forall now ctx,
     lock_run true Unlocked (trace (GetModels now ctx c)) = Some Unlocked) /\
  (forall flt fs path now,
     lock_run true Unlocked (trace (LoadFromFile flt fs path now c))
       = Some Unlocked) /\
  (forall flt fs path,
     lock_run false Unlocked (trace (SaveToFile flt fs path c))
       = Some Unlocked /\
     (modelsJSON c <> [] ->
      lock_run true Unlocked (trace (SaveToFile flt fs path c)) = None)).
Proof.
  split; [|split; [|split]].
  - intros w ctx.
    destruct (refresh_trace_cases w ctx c)
      as [(e & _ & ->)|[(token & e & _ & _ & ->)|[(token & e & _ & _ & _ & ->)
          |[(token & resp & _ & _ & _ & ->)
           |(token & resp & data & _ & _ & _ & ->)]]]]; done.
  - intros now ctx.
    by destruct (GetModels_cases now ctx c)
      as [(_ & _ & ->)|[(_ & _ & ->)|(_ & ->)]].
  - intros flt fs path now.
    destruct (os.ReadFile flt fs path) as [data [e|]] eqn:HR.
    + run_M. by rewrite HR.
    + rewrite (LoadFromFile_on_data _ _ _ _ _ _ HR).
      by destruct (json.Unmarshal data).
  - intros flt fs path. rewrite SaveToFile_cases.
    by destruct (modelsJSON c).
Qed.

Lemma methods_respect_the_mutex_witness :
  lock_run true Unlocked
    (trace (SaveToFile os.no_fault ∅ "models.json" sample_cache)) = None.
Proof.
  apply (proj2 (proj2 (proj2 (proj2 (methods_respect_the_mutex sample_cache)))
                 os.no_fault ∅ "models.json")).
  discriminate.
Defined.

(** ** Sequences of calls *)

Lemma refresh_keeps_settings (w : World) (ctx : Context) (c : ModelsCache) :
  ttl (after (refresh w ctx c)) = ttl c /\
  tokenManager (after (refresh w ctx c)) = tokenManager c /\
  httpClient (after (refresh w ctx c)) = httpClient c /\
  (modelsJSON c <> [] -> modelsJSON (after (refresh w ctx c)) <> []).
Proof.
  destruct (result (refresh w ctx c)) as [e|] eqn:Hres.
  - assert (result (refresh w ctx c) <> None) as Hfail by congruence.
    by apply refresh_failure_keeps in Hfail as [-> _].
  - destruct (refresh_success w ctx c Hres)
      as (token & resp & data & _ & _ & _ & _ & _ & HU & -> & _).
    repeat split. intros _. cbn. by apply Unmarshal_accepts_nonempty.
Qed.

Lemma LoadFromFile_keeps_settings (flt : os.Fault)
    (fs : gmap string (list byte)) (path : string) (now : Z)
    (c : ModelsCache) :
  ttl (after (LoadFromFile flt fs path now c)) = ttl c /\
  tokenManager (after (LoadFromFile flt fs path now c)) = tokenManager c /\
  httpClient (after (LoadFromFile flt fs path now c)) = httpClient c /\
  (modelsJSON c <> [] ->
   modelsJSON (after (LoadFromFile flt fs path now c)) <> []).
Proof.
  destruct (os.ReadFile flt fs path) as [data [e|]] eqn:HR.
  - run_M. by rewrite HR.
  - rewrite (LoadFromFile_on_data _ _ _ _ _ _ HR).
    destruct (json.Unmarshal data) eqn:HU; [done|].
    repeat split. intros _. cbn. by apply Unmarshal_accepts_nonempty.
Qed.

Lemma GetModels_with_background_after (w : World) (now : Z) (ctx : Context)
    (c : ModelsCache) :
  after (GetModels_with_background w now ctx c) = c \/
  after (GetModels_with_background w now ctx c)
    = after (refresh w context_Background c).
Proof.
  unfold GetModels_with_background.
  destruct (GetModels_cases now ctx c)
    as [(_ & _ & ->)|[(_ & _ & ->)|(_ & ->)]];
    unfold after, result, trace; cbn; [by left|right..];
    by destruct (refresh w context_Background c) as [[r c1] t1].
Qed.

(** Whatever calls are made on a cache, by readers, by background
    refreshes, by saves and loads, in any number and order and with any
    answers of the world: its TTL, its token manager and its HTTP
    client stay those it was built with, and a blob that is not empty
    is never replaced by an empty one. *)
Theorem methods_keep_settings_and_blob (c c' : ModelsCache) :
  rtc method_step c c' ->
  ttl c' = ttl c /\
  tokenManager c' = tokenManager c /\
  httpClient c' = httpClient c /\
  (modelsJSON c <> [] -> modelsJSON c' <> []).
Proof.
  induction 1 as [c|c c1 c2 Hstep _ IH]; [done|].
  assert (ttl c1 = ttl c /\ tokenManager c1 = tokenManager c /\
          httpClient c1 = httpClient c /\
          (modelsJSON c <> [] -> modelsJSON c1 <> [])) as (H1 & H2 & H3 & H4).
  { destruct Hstep as [w ctx c|w now ctx c|flt fs path c|flt fs path now c].
    - apply refresh_keeps_settings.
    - destruct (GetModels_with_background_after w now ctx c) as [->| ->];
        [done | apply refresh_keeps_settings].
    - by rewrite SaveToFile_keeps_cache.
    - apply LoadFromFile_keeps_settings. }
  destruct IH as (I1 & I2 & I3 & I4).
  rewrite I1, I2, I3, H1, H2, H3. repeat split; auto.
Qed.

Lemma methods_keep_settings_and_blob_witness :
  ttl (after (LoadFromFile os.no_fault {["models.json" := sample_array]}
                "models.json" 9000
                (after (refresh (world_answering 200 "200 OK" sample_models 7000)
                          context_Background sample_cache)))) = ten_minutes.
Proof.
  apply (methods_keep_settings_and_blob sample_cache).
  eapply rtc_l; [apply step_refresh|].
  eapply rtc_l; [apply step_LoadFromFile|].
  apply rtc_refl.
Defined.

(** A read of a cache whose blob was committed at [t], made within the
    TTL. *)
Lemma GetModels_after_commit (c : ModelsCache) (data : list byte) (t now : Z)
    (ctx : Context) :
  data <> [] ->
  time.Since now t <= ttl c ->
  GetModels now ctx (committed c data t)
    = ((data, None), committed c data t, [mu_RLock; mu_RUnlock]).
Proof.
  intros Hdata Hfresh.
  destruct (GetModels_cases now ctx (committed c data t))
    as [(_ & _ & ->)|[(Hexp & _)|(Hblob & _)]]; cbn in *; [done|lia|done].
Qed.

(** What a successful refresh fetched is what readers get: after a
    refresh that returned nil, every read made while the age of the
    fetch is within the TTL returns the body of the upstream response,
    byte for byte, without starting another refresh. *)
Theorem read_after_refresh_returns_body (w : World) (ctx ctx' : Context)
    (c : ModelsCache) (resp : Response) (now : Z) :
  upstream_answers w ctx c resp ->
  result (refresh w ctx c) = None ->
  time.Since now (Now w) <= ttl c ->
  result (GetModels now ctx' (after (refresh w ctx c)))
    = (fst (Body resp), None) /\
  trace (GetModels now ctx' (after (refresh w ctx c)))
    = [mu_RLock; mu_RUnlock].
Proof.
  intros (token & HT & HR & HD) Hok Hfresh.
  destruct (refresh_success w ctx c Hok)
    as (token' & resp' & data & HT' & _ & HD' & _ & HB & HU & -> & _).
  assert (token' = token) as -> by congruence.
  assert (resp' = resp) as -> by congruence.
  rewrite HB; cbn.
  rewrite GetModels_after_commit;
    [done | by apply Unmarshal_accepts_nonempty | done].
Qed.

Lemma read_after_refresh_returns_body_witness :
  result (GetModels (5000 + ten_minutes) (context_Caller 2)
            (after (refresh (world_answering 200 "200 OK" sample_array 5000)
                      context_Background sample_cache)))
    = (sample_array, None).
Proof.
  apply (read_after_refresh_returns_body
           (world_answering 200 "200 OK" sample_array 5000)
           context_Background (context_Caller 2) sample_cache
           (mkResponse 200 "200 OK" (sample_array, None))
           (5000 + ten_minutes)).
  - exists "tok"%string. repeat split.
  - reflexivity.
  - vm_compute. discriminate.
Defined.

(** The outcome of a refresh does not depend on the blob and fetch time
    it finds. *)
Lemma refresh_ignores_stored_blob (w : World) (ctx : Context)
    (c c' : ModelsCache) :
  ttl c' = ttl c -> tokenManager c' = tokenManager c ->
  httpClient c' = httpClient c ->
  result (refresh w ctx c') = result (refresh w ctx c) /\
  trace (refresh w ctx c') = trace (refresh w ctx c) /\
  (result (refresh w ctx c) = None ->
   after (refresh w ctx c') = after (refresh w ctx c)).
Proof.
  intros Httl Htm Hcl. run_M. rewrite Htm, Hcl.
  destruct (GetToken w (tokenManager c) ctx) as [token|e]; cbn; [|done].
  destruct (NewRequestWithContext w ctx "GET" modelsURL); cbn; [done|].
  destruct (Do w (httpClient c) (build_request ctx token)) as [resp|e];
    cbn; [|done].
  destruct (StatusCode resp =? 200); cbn; [|done].
  destruct (Body resp) as [data [e|]]; cbn; [done|].
  destruct (json.Unmarshal data); cbn; [done|].
  by rewrite Httl, Htm, Hcl.
Qed.

(** Two refreshes one after the other, as two stale reads start them:
    the second ends as it would have ended alone, and the cache is left
    as by the last refresh that succeeded: by the second if it
    succeeds, and otherwise as the first left it. *)
Theorem last_successful_refresh_wins (w1 w2 : World) (ctx1 ctx2 : Context)
    (c : ModelsCache) :
  result (refresh w2 ctx2 (after (refresh w1 ctx1 c)))
    = result (refresh w2 ctx2 c) /\
  after (refresh w2 ctx2 (after (refresh w1 ctx1 c)))
    = match result (refresh w2 ctx2 c) with
      | None => after (refresh w2 ctx2 c)
      | Some _ => after (refresh w1 ctx1 c)
      end.
Proof.
  destruct (refresh_keeps_settings w1 ctx1 c) as (Httl & Htm & Hcl & _).
  destruct (refresh_ignores_stored_blob w2 ctx2 c (after (refresh w1 ctx1 c))
              Httl Htm Hcl) as (Hres & _ & Hafter).
  split; [done|].
  destruct (result (refresh w2 ctx2 c)) as [e|] eqn:Hr2; [|by apply Hafter].
  assert (result (refresh w2 ctx2 (after (refresh w1 ctx1 c))) <> None)
    as Hfail by congruence.
  by apply refresh_failure_keeps in Hfail as [-> _].
Qed.

(** ** More on the files *)

(** When the file cannot be read, [LoadFromFile] returns the error of
    [os.ReadFile] as it is, not wrapped, takes no lock and leaves the
    cache as it was; so does the load of a path that does not exist. *)
Theorem load_of_unreadable_file_keeps_cache (flt : os.Fault)
    (fs : gmap string (list byte)) (path : string) (now : Z)
    (c : ModelsCache) (data : list byte) (e : error) :
  os.ReadFile flt fs path = (data, Some e) ->
  LoadFromFile flt fs path now c = (Some e, c, [call_ReadFile path]) /\
  (flt = os.no_fault -> fs !! path = None /\ e = os.ErrNotExist).
Proof.
  intros HR. split.
  - run_M. by rewrite HR.
  - intros ->. unfold os.ReadFile in HR.
    destruct (fs !! path); by simplify_eq.
Qed.

Lemma load_of_unreadable_file_keeps_cache_witness :
  LoadFromFile os.no_fault ∅ "models.json" 9000 sample_cache
    = (Some os.ErrNotExist, sample_cache, [call_ReadFile "models.json"]).
Proof.
  destruct (load_of_unreadable_file_keeps_cache os.no_fault ∅
              "models.json" 9000 sample_cache [] os.ErrNotExist) as [H _].
  - vm_compute. reflexivity.
  - exact H.
Defined.

(** What was loaded can be read and saved: after a [LoadFromFile] that
    returned nil, the cache holds the bytes of the file; a read within
    the TTL counted from the load returns them without a refresh, and a
    [SaveToFile] to any path, the file system not failing, returns nil
    and makes that file a copy of the one loaded. *)
Theorem load_then_read_and_save (flt : os.Fault)
    (fs fs2 : gmap string (list byte)) (path path2 : string) (now now' : Z)
    (ctx : Context) (c : ModelsCache) :
  result (LoadFromFile flt fs path now c) = None ->
  let c' := after (LoadFromFile flt fs path now c) in
  fs !! path = Some (modelsJSON c') /\
  (time.Since now' now <= ttl c ->
   GetModels now' ctx c' = ((modelsJSON c', None), c', [mu_RLock; mu_RUnlock])) /\
  fst (result (SaveToFile os.no_fault fs2 path2 c')) = None /\
  snd (result (SaveToFile os.no_fault fs2 path2 c')) !! path2 = fs !! path.
Proof.
  intros Hload c'. subst c'.
  destruct (os.ReadFile flt fs path) as [data [e|]] eqn:HR.
  { revert Hload. run_M. by rewrite HR. }
  rewrite (LoadFromFile_on_data _ _ _ _ _ _ HR) in Hload |- *.
  destruct (json.Unmarshal data) eqn:HU; [done|].
  assert (data <> []) as Hdata by (by apply Unmarshal_accepts_nonempty).
  assert (fs !! path = Some data) as Hfile.
  { unfold os.ReadFile in HR.
    destruct flt, (fs !! path); by simplify_eq. }
  unfold after; cbn [fst snd modelsJSON committed].
  rewrite (SaveToFile_succeeds fs2 path2 (committed c data now)) by done.
  split; [done|]. split; [|split].
  - intros Hfresh. by apply GetModels_after_commit.
  - done.
  - cbn. by rewrite lookup_insert_eq.
Qed.

Lemma load_then_read_and_save_witness :
  snd (result (SaveToFile os.no_fault ∅ "b.json"
                 (after (LoadFromFile os.no_fault {["a.json" := sample_array]}
                           "a.json" 9000 empty_cache)))) !! "b.json"
    = Some sample_array.
Proof.
  destruct (load_then_read_and_save os.no_fault {["a.json" := sample_array]}
              ∅ "a.json" "b.json" 9000 9001 context_Background empty_cache)
    as (_ & _ & _ & Hcopy).
  - reflexivity.
  - rewrite Hcopy. reflexivity.
Defined.

(** ** More on construction and on the TTL *)

(** A cache that [NewModelsCache] returned is wired as asked: it keeps
    the TTL and the token manager it was given and the client it was
    given, or [http.DefaultClient] for a nil client; its first fetch
    asked that token manager under the caller's context and went
    through that client; and every read made within the TTL of that
    fetch returns the body the upstream sent, with no refresh. *)
Theorem constructed_cache_serves_first_fetch (w : World) (ctx : Context)
    (tm : TokenManager) (ttl0 : Z) (client : option Client)
    (c : ModelsCache) (t : list Event) :
  NewModelsCache w ctx tm ttl0 client = (inl c, t) ->
  ttl c = ttl0 /\ tokenManager c = tm /\
  httpClient c = default http_DefaultClient client /\
  exists token resp,
    GetToken w tm ctx = inl token /\
    Do w (default http_DefaultClient client) (build_request ctx token)
      = inl resp /\
    t = refresh_trace_ok c ctx token (fst (Body resp)) (Now w) /\
    modelsJSON c = fst (Body resp) /\
    forall now ctx',
      time.Since now (Now w) <= ttl0 ->
      GetModels now ctx' c = ((fst (Body resp), None), c, [mu_RLock; mu_RUnlock]).
Proof.
  rewrite NewModelsCache_unfold.
  set (seed := mkModelsCache [] time.zero ttl0 tm
                 (default http_DefaultClient client)).
  pose proof (refresh_success w ctx seed) as Hsucc.
  unfold result, after, trace in Hsucc.
  destruct (refresh w ctx seed) as [[[e|] c1] t1]; cbn [fst snd] in *; [done|].
  intros [= <- <-].
  destruct (Hsucc eq_refl)
    as (token & resp & data & HT & _ & HD & _ & HB & HU & -> & ->).
  cbn in HT, HD |- *. repeat split.
  exists token, resp. rewrite HB; cbn.
  repeat split; try done.
  intros now ctx' Hfresh.
  apply (GetModels_after_commit seed data (Now w) now ctx');
    [by apply Unmarshal_accepts_nonempty | done].
Qed.

(** Scenario A: the cache is built with a TTL of ten minutes while the
    upstream returns the sample models. *)
Lemma constructed_cache_serves_first_fetch_witness :
  exists token resp,
    GetToken (world_answering 200 "200 OK" sample_models 5000)
      (TokenManager_at 0) context_Background = inl token /\
    Do (world_answering 200 "200 OK" sample_models 5000)
      (default http_DefaultClient None)
      (build_request context_Background token) = inl resp /\
    refresh_trace_ok empty_cache context_Background "tok" sample_models 5000
      = refresh_trace_ok (committed empty_cache sample_models 5000)
          context_Background token (fst (Body resp)) 5000 /\
    sample_models = fst (Body resp) /\
    forall now ctx',
      time.Since now 5000 <= ten_minutes ->
      GetModels now ctx' (committed empty_cache sample_models 5000)
        = ((fst (Body resp), None), committed empty_cache sample_models 5000,
           [mu_RLock; mu_RUnlock]).
Proof.
  apply (constructed_cache_serves_first_fetch
           (world_answering 200 "200 OK" sample_models 5000)
           context_Background (TokenManager_at 0) ten_minutes None
           (committed empty_cache sample_models 5000)
           (refresh_trace_ok empty_cache context_Background "tok"
              sample_models 5000)).
  reflexivity.
Defined.

(** The ends of the TTL.  With the largest duration as TTL a blob never
    expires: no read ever starts a refresh.  With a negative TTL every
    read made at or after the fetch time finds the entry stale and
    starts one. *)
Theorem ttl_extremes (now : Z) (ctx : Context) (c : ModelsCache) :
  (ttl c = time.maxDuration -> modelsJSON c <> [] ->
   GetModels now ctx c = ((modelsJSON c, None), c, [mu_RLock; mu_RUnlock])) /\
  (ttl c < 0 -> lastFetch c <= now ->
   trace (GetModels now ctx c)
     = [mu_RLock; mu_RUnlock; go_refresh context_Background]).
Proof.
  assert (time.minDuration <= time.Since now (lastFetch c) <= time.maxDuration)
    as Hrange.
  { unfold time.Since, time.Sub, time.minDuration, time.maxDuration.
    destruct (Z.ltb_spec (now - lastFetch c) (- 2 ^ 63)); [lia|].
    destruct (Z.ltb_spec (2 ^ 63 - 1) (now - lastFetch c)); lia. }
  split.
  - intros Hmax Hblob.
    destruct (GetModels_cases now ctx c)
      as [(_ & _ & ->)|[(Hexp & _)|(Hempty & _)]]; [done|lia|done].
  - intros Hneg Hclock.
    assert (0 <= time.Since now (lastFetch c)) as Hage.
    { unfold time.Since, time.Sub, time.minDuration, time.maxDuration.
      destruct (Z.ltb_spec (now - lastFetch c) (- 2 ^ 63)); [lia|].
      destruct (Z.ltb_spec (2 ^ 63 - 1) (now - lastFetch c)); lia. }
    destruct (GetModels_cases now ctx c)
      as [(Hfresh & _)|[(_ & _ & ->)|(_ & ->)]]; [lia|done|done].
Qed.

Lemma ttl_extremes_witness :
  trace (GetModels 1000 (context_Caller 1)
           (mkModelsCache sample_models 1000 (-1) (TokenManager_at 0)
              http_DefaultClient))
    = [mu_RLock; mu_RUnlock; go_refresh context_Background] /\
  GetModels (10 ^ 30) (context_Caller 1)
    (mkModelsCache sample_models 1000 time.maxDuration (TokenManager_at 0)
       http_DefaultClient)
    = ((sample_models, None),
       mkModelsCache sample_models 1000 time.maxDuration (TokenManager_at 0)
         http_DefaultClient,
       [mu_RLock; mu_RUnlock]).
Proof.
  split.
  - apply (proj2 (ttl_extremes 1000 (context_Caller 1)
       (mkModelsCache sample_models 1000 (-1) (TokenManager_at 0)
          http_DefaultClient))); cbn; lia.
  - apply (proj1 (ttl_extremes (10 ^ 30) (context_Caller 1)
       (mkModelsCache sample_models 1000 time.maxDuration (TokenManager_at 0)
          http_DefaultClient))); [reflexivity | discriminate].
Defined.

(** ** The configuration file *)

Lemma ParseBool_true (s : string) :
  configfile.ParseBool s = Some true <-> In s true_spellings.
Proof.
  unfold configfile.ParseBool, true_spellings. split.
  - intros H.
    repeat match type of H with
           | context [String.eqb s ?x] =>
               let E := fresh "E" in
               destruct (String.eqb s x) eqn:E;
               [apply String.eqb_eq in E; cbn in H;
                first [discriminate H | rewrite E; cbn; auto 10]|]
           end.
    cbn in H. discriminate H.
  - intros Hin. repeat (destruct Hin as [<-|Hin]; [done|]). done.
Qed.

Lemma ParseBool_false (s : string) :
  configfile.ParseBool s = Some false <-> In s false_spellings.
Proof.
  unfold configfile.ParseBool, false_spellings. split.
  - intros H.
    repeat match type of H with
           | context [String.eqb s ?x] =>
               let E := fresh "E" in
               destruct (String.eqb s x) eqn:E;
               [apply String.eqb_eq in E; cbn in H;
                first [discriminate H | rewrite E; cbn; auto 10]|]
           end.
    cbn in H. discriminate H.
  - intros Hin. repeat (destruct Hin as [<-|Hin]; [done|]). done.
Qed.

(** [getEnvBool]: a variable set to one of 1, t, T, TRUE, true, True
    gives true and one set to 0, f, F, FALSE, false, False gives false,
    whatever the default, and nothing is printed; an unset variable
    gives the default silently; any other value, the empty string and
    spellings such as yes or on included, gives the default and one
    warning on standard error. *)
Theorem getEnvBool_spellings (h : configfile.Host) (key : string) (def : bool) :
  (configfile.environ h !! key = None ->
     configfile.getEnvBool h key def = (def, [])) /\
  (forall val, configfile.environ h !! key = Some val ->
     (In val true_spellings -> configfile.getEnvBool h key def = (true, [])) /\
     (In val false_spellings -> configfile.getEnvBool h key def = (false, [])) /\
     (~ In val true_spellings -> ~ In val false_spellings ->
      configfile.getEnvBool h key def
        = (def, [configfile.warn_invalid_boolean key val def]))).
Proof.
  split.
  - intros Hunset. run_Out. by rewrite Hunset.
  - intros val Hset. run_Out. rewrite Hset.
    split; [|split].
    + intros Hin. apply ParseBool_true in Hin. by rewrite Hin.
    + intros Hin. apply ParseBool_false in Hin. by rewrite Hin.
    + intros Ht Hf.
      destruct (configfile.ParseBool val) as [[|]|] eqn:HP; [| |done].
      * by apply ParseBool_true in HP.
      * by apply ParseBool_false in HP.
Qed.

(** DEBUG=yes is not a boolean for [ParseBool]: the default stands and a
    warning is printed; DEBUG=T is true. *)
Lemma getEnvBool_spellings_witness :
  configfile.getEnvBool (configfile.bare_host {["DEBUG" := "yes"]}) "DEBUG" false
    = (false, [configfile.warn_invalid_boolean "DEBUG" "yes" false]) /\
  configfile.getEnvBool (configfile.bare_host {["DEBUG" := "T"]}) "DEBUG" false
    = (true, []).
Proof.
  split.
  - apply (proj2 (getEnvBool_spellings
              (configfile.bare_host {["DEBUG" := "yes"]}) "DEBUG" false) "yes").
    + reflexivity.
    + cbn. intros H. repeat (destruct H as [H|H]; [discriminate H|]). exact H.
    + cbn. intros H. repeat (destruct H as [H|H]; [discriminate H|]). exact H.
  - apply (proj2 (getEnvBool_spellings
              (configfile.bare_host {["DEBUG" := "T"]}) "DEBUG" false) "T").
    + reflexivity.
    + cbn. auto.
Defined.

(** The digits of [%x] read back. *)
Lemma unhex_Sprintf_x (b : list byte) :
  configfile.unhex (configfile.Sprintf_x b) = Some b.
Proof.
  induction b as [|c b IH]; [done|].
  cbn [configfile.Sprintf_x configfile.unhex]. rewrite IH.
  by destruct c.
Qed.

Lemma length_Sprintf_x (b : list byte) :
  String.length (configfile.Sprintf_x b) = (2 * length b)%nat.
Proof. induction b as [|c b IH]; cbn; [done|]. rewrite IH. lia. Qed.

Lemma randomToken_cases (h : configfile.Host) :
  configfile.randomToken h =
    (match configfile.rand_Read h with
     | inl fill => configfile.Sprintf_x (map fill (seq 0 32))
     | inr _ => "default-token"
     end, [configfile.call_rand_Read 32]).
Proof.
  unfold configfile.randomToken, configfile.effect, mbind, mret,
    configfile.Out_bind, configfile.Out_ret.
  by destruct (configfile.rand_Read h).
Qed.

Lemma randomToken_nonempty (h : configfile.Host) :
  fst (configfile.randomToken h) <> "".
Proof.
  rewrite randomToken_cases; cbn [fst].
  destruct (configfile.rand_Read h) as [fill|e]; [|done].
  intros Hempty.
  pose proof (length_Sprintf_x (map fill (seq 0 32))) as Hlen.
  rewrite Hempty in Hlen. done.
Qed.

(** [randomToken] asks the random source once for 32 bytes.  When it
    answers, the token is their lower-case hexadecimal writing: 64
    characters that read back as the 32 bytes, so that two random
    answers that differ in a byte give two different tokens.  When it
    fails the token is the fixed string "default-token".  The token is
    never empty. *)
Theorem randomToken_is_hex_of_random_bytes (h : configfile.Host) :
  snd (configfile.randomToken h) = [configfile.call_rand_Read 32] /\
  fst (configfile.randomToken h) <> "" /\
  (forall e, configfile.rand_Read h = inr e ->
     fst (configfile.randomToken h) = "default-token") /\
  (forall fill, configfile.rand_Read h = inl fill ->
     String.length (fst (configfile.randomToken h)) = 64%nat /\
     configfile.unhex (fst (configfile.randomToken h))
       = Some (map fill (seq 0 32)) /\
     forall h' fill',
       configfile.rand_Read h' = inl fill' ->
       fst (configfile.randomToken h') = fst (configfile.randomToken h) ->
       forall i, (i < 32)%nat -> fill' i = fill i).
Proof.
  rewrite randomToken_cases; cbn [fst snd].
  destruct (configfile.rand_Read h) as [fill|e] eqn:Hrand.
  - split; [done|]. split.
    + intros Hempty.
      pose proof (length_Sprintf_x (map fill (seq 0 32))) as Hlen.
      rewrite Hempty in Hlen. done.
    + split; [done|]. intros fill0 [= <-].
      split; [by rewrite length_Sprintf_x|].
      split; [apply unhex_Sprintf_x|].
      intros h' fill' Hrand' Heq i Hi.
      rewrite randomToken_cases, Hrand' in Heq; cbn [fst snd] in Heq.
      assert (map fill' (seq 0 32) = map fill (seq 0 32)) as Hmap.
      { pose proof (unhex_Sprintf_x (map fill' (seq 0 32))) as H1.
        rewrite Heq, unhex_Sprintf_x in H1. congruence. }
      assert (nth_error (map fill' (seq 0 32)) i
              = nth_error (map fill (seq 0 32)) i) as Hnth by (by rewrite Hmap).
      rewrite !nth_error_map, nth_error_seq in Hnth.
      destruct (Nat.ltb_spec i 32); [|lia]. cbn in Hnth. congruence.
  - split; [done|]. split; [done|]. split; [by intros e0 _|done].
Qed.

Lemma randomToken_is_hex_of_random_bytes_witness :
  String.length (fst (configfile.randomToken
     (configfile.linux_host ∅ [] ∅ (fun i => if Nat.even i then xab else x07))))
    = 64%nat /\
  fst (configfile.randomToken (configfile.bare_host ∅)) = "default-token".
Proof.
  split.
  - apply (proj2 (proj2 (proj2 (randomToken_is_hex_of_random_bytes
       (configfile.linux_host ∅ [] ∅
          (fun i => if Nat.even i then xab else x07)))))
       (fun i => if Nat.even i then xab else x07)).
    reflexivity.
  - apply (proj1 (proj2 (proj2 (randomToken_is_hex_of_random_bytes
       (configfile.bare_host ∅))))
       (external_error "no entropy")).
    reflexivity.
Defined.

(** [createHTTPClient]: with an empty proxy nothing is parsed and the
    client has no proxy; with a proxy the URL is parsed once, a parse
    error is returned as "invalid proxy URL", and otherwise the client
    proxies through the parsed URL.  Every client returned refuses TLS
    below 1.2, gives up a request after 30 seconds and keeps at most 100
    idle connections, 10 per host, for 90 seconds. *)
Theorem createHTTPClient_proxy_and_limits (h : configfile.Host)
    (proxyURL : string) :
  (proxyURL = "" ->
     exists client,
       configfile.createHTTPClient h proxyURL = (inl client, []) /\
       configfile.Proxy (configfile.client_Transport client) = None) /\
  (proxyURL <> "" ->
     snd (configfile.createHTTPClient h proxyURL)
       = [configfile.call_url_Parse proxyURL] /\
     (forall e, configfile.url_Parse h proxyURL = inr e ->
        fst (configfile.createHTTPClient h proxyURL)
          = inr (configfile.invalid_proxy_URL proxyURL e)) /\
     (forall u, configfile.url_Parse h proxyURL = inl u ->
        exists client,
          fst (configfile.createHTTPClient h proxyURL) = inl client /\
          configfile.Proxy (configfile.client_Transport client) = Some u)) /\
  (forall client,
     fst (configfile.createHTTPClient h proxyURL) = inl client ->
     configfile.Timeout client = 30 * 10 ^ 9 /\
     configfile.TLSMinVersion (configfile.client_Transport client) = 771 /\
     configfile.MaxIdleConns (configfile.client_Transport client) = 100 /\
     configfile.MaxIdleConnsPerHost (configfile.client_Transport client) = 10 /\
     configfile.IdleConnTimeout (configfile.client_Transport client)
       = 90 * 10 ^ 9).
Proof.
  run_Out.
  destruct (String.eqb_spec proxyURL "") as [->|Hne]; cbn.
  - split; [intros _; by eexists|]. split; [done|].
    by intros client [= <-].
  - split; [done|]. split.
    + intros _.
      destruct (configfile.url_Parse h proxyURL) as [u|e]; cbn.
      * split; [done|]. split; [done|]. intros u0 [= <-]. by eexists.
      * split; [done|]. split; [by intros e0 [= <-]|done].
    + destruct (configfile.url_Parse h proxyURL) as [u|e]; cbn; [|done].
      by intros client [= <-].
Qed.

Lemma createHTTPClient_proxy_and_limits_witness :
  fst (configfile.createHTTPClient (configfile.bare_host ∅) "::bad")
    = inr (configfile.invalid_proxy_URL "::bad" (external_error "parse error")).
Proof.
  destruct (proj1 (proj2 (createHTTPClient_proxy_and_limits
                            (configfile.bare_host ∅) "::bad")))
    as (_ & Herr & _).
  - discriminate.
  - apply (Herr (external_error "parse error")). reflexivity.
Defined.

(** ** [findCopilotToken] *)

Lemma first_OAuthToken_spec (entries : list (string * configfile.App)) :
  (configfile.first_OAuthToken entries = "" /\
   Forall (fun kv => configfile.OAuthToken kv.2 = "") entries) \/
  (configfile.first_OAuthToken entries <> "" /\
   exists k v, In (k, v) entries /\
     configfile.OAuthToken v = configfile.first_OAuthToken entries).
Proof.
  induction entries as [|[k v] entries IH]; cbn.
  - left. by split.
  - destruct (String.eqb_spec (configfile.OAuthToken v) "") as [Hv|Hv]; cbn.
    + destruct IH as [[Hnone Hall]|(Hsome & k' & v' & Hin & Htok)].
      * left. split; [done|]. by constructor.
      * right. split; [done|]. exists k', v'. split; [by right|done].
    + right. split; [done|]. exists k, v. split; [by left|done].
Qed.

(** The paths through [findCopilotToken]. *)
Lemma findCopilotToken_cases (h : configfile.Host) :
  let looked :=
    if String.eqb (configfile.GOOS h) "windows" then []
    else [configfile.call_UserHomeDir] in
  configfile.findCopilotToken h =
    if String.eqb (apps_json_path h) "" then ("", looked)
    else
      match configfile.ReadFile h (apps_json_path h) with
      | inr _ => ("", looked ++ [configfile.call_ReadFile (apps_json_path h)])
      | inl data =>
          (match configfile.Unmarshal_apps h data with
           | inr _ => ""
           | inl apps =>
               configfile.first_OAuthToken (configfile.range_apps h apps)
           end,
           looked ++ [configfile.call_ReadFile (apps_json_path h);
                      configfile.call_Unmarshal data])
      end.
Proof.
  intros looked. subst looked. unfold apps_json_path. run_Out.
  destruct (String.eqb (configfile.GOOS h) "windows"); cbn.
  - destruct (negb (String.eqb
                      (default "" (configfile.environ h !! "LOCALAPPDATA")) ""));
      cbn; [|done].
    destruct (String.eqb (configfile.Join h _) ""); cbn; [done|].
    destruct (configfile.ReadFile h _) as [data|e]; cbn; [|done].
    by destruct (configfile.Unmarshal_apps h data).
  - destruct (configfile.UserHomeDir h) as [home|e]; cbn; [|done].
    destruct (String.eqb (configfile.Join h _) ""); cbn; [done|].
    destruct (configfile.ReadFile h _) as [data|e']; cbn; [|done].
    by destruct (configfile.Unmarshal_apps h data).
Qed.

(** With [range] meeting every entry of the map once: a token that
    [findCopilotToken] returns is the [oauth_token] of an entry of the
    [apps.json] of this host, a file that was read and is well-formed
    JSON; and when that file decodes to a map in which some entry has a
    token, a token is returned, whichever entry [range] meets first. *)
Theorem findCopilotToken_returns_token_of_an_entry (h : configfile.Host) :
  range_visits_each_entry_once h ->
  (fst (configfile.findCopilotToken h) <> "" ->
   exists data apps k v,
     apps_json_path h <> "" /\
     configfile.ReadFile h (apps_json_path h) = inl data /\
     json.well_formed data = true /\
     configfile.decode_apps h data = inl apps /\
     apps !! k = Some v /\
     configfile.OAuthToken v = fst (configfile.findCopilotToken h)) /\
  (forall data apps k v,
     apps_json_path h <> "" ->
     configfile.ReadFile h (apps_json_path h) = inl data ->
     json.well_formed data = true ->
     configfile.decode_apps h data = inl apps ->
     apps !! k = Some v -> configfile.OAuthToken v <> "" ->
     fst (configfile.findCopilotToken h) <> "").
Proof.
  intros Hrange. rewrite findCopilotToken_cases. split.
  - destruct (String.eqb_spec (apps_json_path h) "") as [Hp|Hp]; [done|].
    destruct (configfile.ReadFile h (apps_json_path h)) as [data|e]; [|done].
    unfold configfile.Unmarshal_apps. cbn [fst].
    destruct (json.checkValid data) eqn:Hcv; [done|].
    destruct (configfile.decode_apps h data) as [apps|e] eqn:Hdec; [|done].
    intros Htok.
    destruct (first_OAuthToken_spec (configfile.range_apps h apps))
      as [[Hnone _]|(_ & k & v & Hin & Hv)]; [done|].
    exists data, apps, k, v.
    split; [done|]. split; [done|].
    split; [unfold json.well_formed; by rewrite Hcv|].
    split; [done|]. split; [|done].
    apply elem_of_map_to_list. rewrite <- (Hrange apps).
    by apply list_elem_of_In.
  - intros data apps k v Hp HR Hwf Hdec Hkv Hv.
    destruct (String.eqb_spec (apps_json_path h) "") as [|_]; [done|].
    rewrite HR. unfold configfile.Unmarshal_apps.
    unfold json.well_formed in Hwf.
    destruct (json.checkValid data); [done|]. rewrite Hdec. cbn [fst].
    destruct (first_OAuthToken_spec (configfile.range_apps h apps))
      as [[_ Hall]|[Hsome _]]; [|done].
    apply elem_of_map_to_list in Hkv. rewrite <- (Hrange apps) in Hkv.
    rewrite Forall_forall in Hall. apply Hall in Hkv. done.
Qed.

Lemma findCopilotToken_returns_token_of_an_entry_witness :
  fst (configfile.findCopilotToken
         (configfile.linux_host ∅ sample_apps_json sample_apps sample_fill))
    <> "".
Proof.
  apply (proj2 (findCopilotToken_returns_token_of_an_entry
           (configfile.linux_host ∅ sample_apps_json sample_apps sample_fill)
           (fun apps => reflexivity (map_to_list apps)))
           sample_apps_json sample_apps "github.com:Iv1.b507a08c87ecfe98"
           (configfile.mkApp "octocat" "gho_abc" "")).
  - vm_compute. discriminate.
  - reflexivity.
  - reflexivity.
  - reflexivity.
  - reflexivity.
  - discriminate.
Defined.

(** [findCopilotToken] never fails: it returns the empty string, without
    a word, when the place of [apps.json] cannot be told (on Windows
    with LOCALAPPDATA unset or empty, where not even a file is looked
    for; elsewhere when the home directory is unknown), when the file
    cannot be read, when it is not well-formed JSON and when it does
    not decode. *)
Theorem findCopilotToken_gives_up_silently (h : configfile.Host) :
  (configfile.GOOS h = "windows" ->
   default "" (configfile.environ h !! "LOCALAPPDATA") = "" ->
   configfile.findCopilotToken h = ("", [])) /\
  (configfile.GOOS h <> "windows" ->
   forall e, configfile.UserHomeDir h = inr e ->
   configfile.findCopilotToken h = ("", [configfile.call_UserHomeDir])) /\
  (forall e, configfile.ReadFile h (apps_json_path h) = inr e ->
   fst (configfile.findCopilotToken h) = "") /\
  (forall data, configfile.ReadFile h (apps_json_path h) = inl data ->
   (json.well_formed data = false \/
    exists e, configfile.decode_apps h data = inr e) ->
   fst (configfile.findCopilotToken h) = "").
Proof.
  rewrite findCopilotToken_cases.
  split; [|split; [|split]].
  - intros Hos Hlad. unfold apps_json_path. by rewrite Hos, Hlad.
  - intros Hos e HU. apply String.eqb_neq in Hos.
    unfold apps_json_path. by rewrite Hos, HU.
  - intros e HR. rewrite HR.
    by destruct (String.eqb (apps_json_path h) "").
  - intros data HR Hbad. rewrite HR.
    destruct (String.eqb (apps_json_path h) ""); [done|]. cbn [fst].
    unfold configfile.Unmarshal_apps, json.well_formed in *.
    destruct (json.checkValid data); [done|].
    destruct Hbad as [|[e ->]]; done.
Qed.

Lemma findCopilotToken_gives_up_silently_witness :
  configfile.findCopilotToken (configfile.bare_host ∅)
    = ("", [configfile.call_UserHomeDir]).
Proof.
  apply (proj1 (proj2 (findCopilotToken_gives_up_silently
                         (configfile.bare_host ∅)))
           ltac:(discriminate) (external_error "$HOME is not defined")).
  reflexivity.
Defined.

(** ** [Load] *)

(** [Load] unfolded along its calls. *)
Lemma Load_cases (h : configfile.Host) :
  let env := configfile.environ h in
  let proxy := config.Load_httpProxy env in
  let tokenEnv := config.getEnv env "COPILOT_OAUTH_TOKEN" "" in
  let found :=
    if String.eqb tokenEnv "" then configfile.findCopilotToken h
    else (tokenEnv, []) in
  configfile.Load h =
    match fst (configfile.createHTTPClient h proxy) with
    | inr e =>
        (inr (configfile.failed_to_create_client e),
         snd (configfile.getEnvBool h "DEBUG" false)
         ++ snd (configfile.randomToken h)
         ++ snd (configfile.createHTTPClient h proxy))
    | inl client =>
        (inl (configfile.mkConfig
                (config.getEnv env "SERVER_ADDR" ":8080")
                (fst (configfile.getEnvBool h "DEBUG" false))
                (fst found)
                (config.getEnv env "COPILOT_TOKEN"
                   (fst (configfile.randomToken h)))
                (config.getEnv env "COPILOT_SERVER_PORT" "9191")
                (config.getEnv env "CORS_ALLOWED_ORIGINS" "*")
                (config.getEnv env "DEFAULT_MODEL" "")
                proxy (Some client)),
         snd (configfile.getEnvBool h "DEBUG" false)
         ++ snd (configfile.randomToken h)
         ++ snd (configfile.createHTTPClient h proxy)
         ++ (if negb (String.eqb proxy "")
             then [configfile.print_using_proxy proxy] else [])
         ++ snd found
         ++ (if String.eqb (fst found) ""
             then [configfile.warn_token_not_found] else []))
    end.
Proof.
  intros env proxy tokenEnv found. subst found tokenEnv proxy env.
  unfold configfile.Load, mbind, mret, configfile.Out_bind,
    configfile.Out_ret, configfile.effect.
  destruct (configfile.getEnvBool h "DEBUG" false) as [debug t1].
  destruct (configfile.randomToken h) as [fallback t2].
  destruct (configfile.createHTTPClient h _) as [[client|e] t3];
    cbn [fst snd]; [|by rewrite app_nil_r].
  destruct (negb (String.eqb (config.Load_httpProxy (configfile.environ h)) ""));
    destruct (String.eqb
                (config.getEnv (configfile.environ h) "COPILOT_OAUTH_TOKEN" "") "");
    [destruct (configfile.findCopilotToken h) as [token t4]|
    |destruct (configfile.findCopilotToken h) as [token t4]|];
    cbn [fst snd];
    match goal with
    | |- context [String.eqb ?t ""] => destruct (String.eqb t "")
    end;
    cbn [fst snd app]; by rewrite ?app_nil_r.
Qed.

Lemma getEnvBool_effects (h : configfile.Host) (key : string) (def : bool) :
  snd (configfile.getEnvBool h key def) = [] \/
  exists val,
    snd (configfile.getEnvBool h key def)
      = [configfile.warn_invalid_boolean key val def].
Proof.
  run_Out. destruct (configfile.environ h !! key) as [val|]; [|by left].
  destruct (configfile.ParseBool val); [by left|]. right. by exists val.
Qed.

Lemma createHTTPClient_effects (h : configfile.Host) (proxyURL : string) :
  snd (configfile.createHTTPClient h proxyURL)
    = if negb (String.eqb proxyURL "")
      then [configfile.call_url_Parse proxyURL] else [].
Proof.
  run_Out. destruct (negb (String.eqb proxyURL "")); cbn; [|done].
  by destruct (configfile.url_Parse h proxyURL).
Qed.

Lemma createHTTPClient_result (h : configfile.Host) (proxyURL : string) :
  fst (configfile.createHTTPClient h proxyURL)
    = if negb (String.eqb proxyURL "")
      then match configfile.url_Parse h proxyURL with
           | inr e => inr (configfile.invalid_proxy_URL proxyURL e)
           | inl u =>
               inl (configfile.mk_http_Client
                      (configfile.mkTransport 771 100 10 (90 * 10 ^ 9) (Some u))
                      (30 * 10 ^ 9))
           end
      else inl (configfile.mk_http_Client
                  (configfile.mkTransport 771 100 10 (90 * 10 ^ 9) None)
                  (30 * 10 ^ 9)).
Proof.
  run_Out. destruct (negb (String.eqb proxyURL "")); cbn; [|done].
  by destruct (configfile.url_Parse h proxyURL).
Qed.

Lemma findCopilotToken_effects (h : configfile.Host) :
  forallb is_token_lookup (snd (configfile.findCopilotToken h)) = true /\
  forallb (fun e => negb (is_rand_Read e))
    (snd (configfile.findCopilotToken h)) = true.
Proof.
  rewrite findCopilotToken_cases.
  destruct (String.eqb (configfile.GOOS h) "windows");
    destruct (String.eqb (apps_json_path h) ""); cbn; try done;
    by destruct (configfile.ReadFile h (apps_json_path h)).
Qed.

Lemma found_token_effects (h : configfile.Host) (tokenEnv : string) :
  forallb is_token_lookup
    (snd (if String.eqb tokenEnv "" then configfile.findCopilotToken h
          else (tokenEnv, []))) = true.
Proof.
  destruct (String.eqb tokenEnv ""); [|done].
  apply findCopilotToken_effects.
Qed.

Lemma token_lookups_print_nothing (t : list configfile.Effect) (p : string) :
  forallb is_token_lookup t = true -> ~ In (configfile.print_using_proxy p) t.
Proof.
  intros Hall Hin. rewrite forallb_forall in Hall. by apply Hall in Hin.
Qed.

(** [Load] fails in one case only: the proxy taken from the environment
    is not empty and [url.Parse] rejects it; the error then names the
    proxy, and [apps.json] has not been looked for.  A configuration
    that [Load] returns records that proxy, and its [GetHTTPClient] is
    the client built for it, never [http.DefaultClient]: without a
    proxy in the environment the client uses none, with one it goes
    through the parsed URL and "Using HTTP proxy" is printed. *)
Theorem Load_fails_only_on_bad_proxy (h : configfile.Host) :
  let proxy := config.Load_httpProxy (configfile.environ h) in
  (forall e, configfile.url_Parse h proxy = inr e -> proxy <> "" ->
     fst (configfile.Load h)
       = inr (configfile.failed_to_create_client
                (configfile.invalid_proxy_URL proxy e)) /\
     forallb (fun e => negb (is_token_lookup e)) (snd (configfile.Load h))
       = true) /\
  (forall err, fst (configfile.Load h) = inr err ->
     proxy <> "" /\ exists e, configfile.url_Parse h proxy = inr e) /\
  (forall cfg, fst (configfile.Load h) = inl cfg ->
     configfile.HTTPProxy cfg = proxy /\
     exists client,
       configfile.HTTPClient cfg = Some client /\
       configfile.GetHTTPClient cfg = configfile.ClientAt client /\
       (proxy = "" ->
        configfile.Proxy (configfile.client_Transport client) = None /\
        ~ In (configfile.print_using_proxy proxy) (snd (configfile.Load h))) /\
       (proxy <> "" ->
        exists u, configfile.url_Parse h proxy = inl u /\
          configfile.Proxy (configfile.client_Transport client) = Some u /\
          In (configfile.print_using_proxy proxy) (snd (configfile.Load h)))).
Proof.
  intros proxy. rewrite Load_cases. fold proxy.
  rewrite createHTTPClient_result, createHTTPClient_effects,
    randomToken_cases.
  cbn [fst snd].
  split; [|split].
  - intros e HP Hne. apply String.eqb_neq in Hne. rewrite Hne, HP; cbn.
    split; [done|].
    by destruct (getEnvBool_effects h "DEBUG" false) as [-> |[val ->]].
  - intros err.
    destruct (String.eqb_spec proxy "") as [Hp|Hp]; cbn; [done|].
    destruct (configfile.url_Parse h proxy) as [u|e]; cbn; [done|].
    intros _. split; [done|]. by exists e.
  - intros cfg.
    destruct (String.eqb_spec proxy "") as [Hp|Hp]; cbn [negb].
    + intros [= <-]; cbn [configfile.HTTPProxy configfile.HTTPClient].
      split; [done|]. eexists. split; [done|].
      split; [done|]. split; [|done]. intros _. split; [done|].
      cbn [fst snd].
      pose proof (token_lookups_print_nothing _ proxy
                    (found_token_effects h
                       (config.getEnv (configfile.environ h)
                          "COPILOT_OAUTH_TOKEN" ""))) as Hfound.
      destruct (getEnvBool_effects h "DEBUG" false) as [Hd|[val Hd]];
        rewrite Hd;
        match goal with
        | |- context [if String.eqb ?t "" then [_] else []] =>
            destruct (String.eqb t "")
        end;
        rewrite ?in_app_iff; cbn [In]; intuition discriminate.
    + destruct (configfile.url_Parse h proxy) as [u|e] eqn:HP; [|done].
      intros [= <-]; cbn [configfile.HTTPProxy configfile.HTTPClient].
      split; [done|]. eexists. split; [done|].
      split; [done|]. split; [done|]. intros _. exists u.
      split; [done|]. split; [done|].
      cbn [fst snd]. rewrite !in_app_iff. right; right; right; left. by left.
Qed.

Lemma Load_fails_only_on_bad_proxy_witness :
  fst (configfile.Load (configfile.bare_host {["ALL_PROXY" := "::bad"]}))
    = inr (configfile.failed_to_create_client
             (configfile.invalid_proxy_URL "::bad"
                (external_error "parse error"))).
Proof.
  destruct (proj1 (Load_fails_only_on_bad_proxy
                     (configfile.bare_host {["ALL_PROXY" := "::bad"]}))
              (external_error "parse error")) as [Hres _].
  - reflexivity.
  - vm_compute. discriminate.
  - exact Hres.
Defined.

(** The OAuth token of a configuration that [Load] returns: a
    COPILOT_OAUTH_TOKEN that is set and not empty is taken as it is and
    [apps.json] is not looked for; when the variable is unset or empty
    the token is the one [findCopilotToken] returns; and the warning
    on standard error is printed exactly when the token ends up empty,
    which does not make [Load] fail. *)
Theorem Load_oauth_token_precedence (h : configfile.Host)
    (cfg : configfile.Config) :
  fst (configfile.Load h) = inl cfg ->
  (forall val, configfile.environ h !! "COPILOT_OAUTH_TOKEN" = Some val ->
     val <> "" ->
     configfile.CopilotOAuthToken cfg = val /\
     forallb (fun e => negb (is_token_lookup e)) (snd (configfile.Load h))
       = true) /\
  (default "" (configfile.environ h !! "COPILOT_OAUTH_TOKEN") = "" ->
     configfile.CopilotOAuthToken cfg = fst (configfile.findCopilotToken h)) /\
  (In configfile.warn_token_not_found (snd (configfile.Load h)) <->
   configfile.CopilotOAuthToken cfg = "").
Proof.
  rewrite Load_cases, createHTTPClient_effects, randomToken_cases.
  rewrite (getEnv_default _ "COPILOT_OAUTH_TOKEN").
  destruct (fst (configfile.createHTTPClient h _)) as [client|e]; [|done].
  cbn [fst snd]. intros [= <-]. cbn [configfile.CopilotOAuthToken].
  split; [|split].
  - intros val Hset Hval. rewrite Hset; cbn [default from_option id].
    apply String.eqb_neq in Hval. rewrite Hval; cbn [fst snd].
    split; [done|]. rewrite Hval.
    destruct (getEnvBool_effects h "DEBUG" false) as [-> |[v ->]];
      by destruct (negb (String.eqb _ "")).
  - intros Hunset. by rewrite Hunset.
  - set (found := if String.eqb _ "" then configfile.findCopilotToken h
                  else _).
    assert (~ In configfile.warn_token_not_found (snd found)) as Hfound.
    { intros Hin.
      pose proof (found_token_effects h
                    (default "" (configfile.environ h !! "COPILOT_OAUTH_TOKEN")))
        as Hall.
      rewrite forallb_forall in Hall. by apply Hall in Hin. }
    destruct (getEnvBool_effects h "DEBUG" false) as [Hd|[v Hd]]; rewrite Hd;
      destruct (negb (String.eqb _ ""));
      destruct (String.eqb_spec (fst found) "") as [Hf|Hf];
      rewrite ?in_app_iff; cbn [In]; intuition discriminate.
Qed.

Lemma Load_oauth_token_precedence_witness :
  forallb (fun e => negb (is_token_lookup e))
    (snd (configfile.Load
            (configfile.linux_host {["COPILOT_OAUTH_TOKEN" := "gho_env"]}
               sample_apps_json sample_apps sample_fill))) = true.
Proof.
  destruct (Load_oauth_token_precedence
              (configfile.linux_host {["COPILOT_OAUTH_TOKEN" := "gho_env"]}
                 sample_apps_json sample_apps sample_fill)
              (configfile.mkConfig ":8080" false "gho_env"
                 (configfile.Sprintf_x (map sample_fill (seq 0 32)))
                 "9191" "*" "" ""
                 (Some (configfile.mk_http_Client
                          (configfile.mkTransport 771 100 10 (90 * 10 ^ 9) None)
                          (30 * 10 ^ 9)))))
    as [Henv _].
  - reflexivity.
  - apply (Henv "gho_env"); [reflexivity | discriminate].
Defined.

(** The access token that guards the gateway: [Load] draws 32 random
    bytes once on every run, also when the environment sets
    COPILOT_TOKEN or when [Load] fails; a COPILOT_TOKEN that is set is
    used as it is, and set to the empty string it gives an empty access
    token, not a random one; unset, the token is the one of
    [randomToken] and is not empty. *)
Theorem Load_access_token (h : configfile.Host) :
  length (List.filter is_rand_Read (snd (configfile.Load h))) = 1%nat /\
  forall cfg, fst (configfile.Load h) = inl cfg ->
    (forall val, configfile.environ h !! "COPILOT_TOKEN" = Some val ->
       configfile.CopilotToken cfg = val) /\
    (configfile.environ h !! "COPILOT_TOKEN" = None ->
       configfile.CopilotToken cfg = fst (configfile.randomToken h) /\
       configfile.CopilotToken cfg <> "").
Proof.
  pose proof (randomToken_nonempty h) as Hnonempty.
  revert Hnonempty.
  rewrite Load_cases, createHTTPClient_effects, randomToken_cases.
  cbn [fst snd]. intros Hnonempty.
  set (found := if String.eqb _ "" then configfile.findCopilotToken h
                else _).
  assert (List.filter is_rand_Read (snd found) = []) as Hfound.
  { subst found. destruct (String.eqb _ ""); [|done].
    destruct (findCopilotToken_effects h) as [_ Hno].
    induction (snd (configfile.findCopilotToken h)) as [|e t IH]; [done|].
    cbn in Hno |- *. apply andb_prop in Hno as [He Ht].
    apply negb_true_iff in He. rewrite He. by apply IH. }
  split.
  - destruct (fst (configfile.createHTTPClient h _)) as [client|e];
      cbn [snd];
      destruct (getEnvBool_effects h "DEBUG" false) as [Hd|[v Hd]]; rewrite Hd;
      destruct (negb (String.eqb _ ""));
      rewrite ?List.filter_app, ?Hfound; cbn; try done;
      by destruct (String.eqb (fst found) "").
  - intros cfg.
    destruct (fst (configfile.createHTTPClient h _)) as [client|e]; [|done].
    cbn [fst]. intros [= <-]. cbn [configfile.CopilotToken].
    unfold config.getEnv. split.
    + by intros val ->.
    + by intros ->.
Qed.

Lemma Load_access_token_witness :
  exists cfg,
    fst (configfile.Load
           (configfile.linux_host {["COPILOT_TOKEN" := ""]}
              sample_apps_json sample_apps sample_fill)) = inl cfg /\
    configfile.CopilotToken cfg = "".
Proof.
  assert (exists cfg,
            fst (configfile.Load
                   (configfile.linux_host {["COPILOT_TOKEN" := ""]}
                      sample_apps_json sample_apps sample_fill)) = inl cfg)
    as [cfg Hcfg] by (eexists; vm_compute; reflexivity).
  exists cfg. split; [exact Hcfg|].
  apply (proj1 (proj2 (Load_access_token
           (configfile.linux_host {["COPILOT_TOKEN" := ""]}
              sample_apps_json sample_apps sample_fill)) cfg Hcfg) "").
  reflexivity.
Defined.

(** The other fields of a configuration that [Load] returns: debugging
    is on exactly when DEBUG is set to one of 1, t, T, TRUE, true,
    True; the server address, the port, the CORS origins and the default
    model are the values of SERVER_ADDR, COPILOT_SERVER_PORT,
    CORS_ALLOWED_ORIGINS and DEFAULT_MODEL when these are set, an empty
    value included, and ":8080", "9191", "*" and the empty string when
    they are not. *)
Theorem Load_fields_follow_environment (h : configfile.Host)
    (cfg : configfile.Config) :
  fst (configfile.Load h) = inl cfg ->
  (configfile.Debug cfg = true <->
   exists val, configfile.environ h !! "DEBUG" = Some val /\
     In val true_spellings) /\
  configfile.ServerAddr cfg
    = default ":8080" (configfile.environ h !! "SERVER_ADDR") /\
  configfile.ServerPort cfg
    = default "9191" (configfile.environ h !! "COPILOT_SERVER_PORT") /\
  configfile.CORSAllowedOrigins cfg
    = default "*" (configfile.environ h !! "CORS_ALLOWED_ORIGINS") /\
  configfile.DefaultModel cfg
    = default "" (configfile.environ h !! "DEFAULT_MODEL").
Proof.
  rewrite Load_cases.
  destruct (fst (configfile.createHTTPClient h _)) as [client|e]; [|done].
  cbn [fst]. intros [= <-]. cbn.
  split.
  - unfold configfile.getEnvBool, mret, mbind, configfile.Out_ret,
      configfile.Out_bind, configfile.effect.
    destruct (configfile.environ h !! "DEBUG") as [val|] eqn:Hset; cbn.
    + destruct (configfile.ParseBool val) as [[|]|] eqn:HP; cbn.
      * split; [|done]. intros _. exists val. split; [done|].
        by apply ParseBool_true.
      * split; [done|]. intros (val' & [= <-] & Hin).
        apply ParseBool_true in Hin. congruence.
      * split; [done|]. intros (val' & [= <-] & Hin).
        apply ParseBool_true in Hin. congruence.
    + split; [done|]. by intros (val' & ? & _).
  - unfold config.getEnv.
    repeat split; by destruct (configfile.environ h !! _).
Qed.

Lemma Load_fields_follow_environment_witness :
  exists cfg,
    fst (configfile.Load
           (configfile.linux_host {["SERVER_ADDR" := ""; "DEBUG" := "1"]}
              sample_apps_json sample_apps sample_fill)) = inl cfg /\
    configfile.Debug cfg = true /\
    configfile.ServerAddr cfg = "" /\ configfile.ServerPort cfg = "9191".
Proof.
  assert (exists cfg,
            fst (configfile.Load
                   (configfile.linux_host {["SERVER_ADDR" := ""; "DEBUG" := "1"]}
                      sample_apps_json sample_apps sample_fill)) = inl cfg)
    as [cfg Hcfg] by (eexists; vm_compute; reflexivity).
  exists cfg. split; [exact Hcfg|].
  destruct (Load_fields_follow_environment
              (configfile.linux_host {["SERVER_ADDR" := ""; "DEBUG" := "1"]}
                 sample_apps_json sample_apps sample_fill) cfg Hcfg)
    as (Hdebug & Haddr & Hport & _).
  split; [|split; [exact Haddr | exact Hport]].
  apply Hdebug. exists "1"%string. split; [reflexivity|]. by left.
Defined.
